(** * Verification of the [actions] helper scripts

    Two Python scripts are embedded here:
    - [cmake-arm-none-eabi/build_artifact_name.py] (module [BuildArtifactName]),
    - [generate-cmake-flags-files/generate_cmake_flags_files.py]
      (module [GenerateCmakeFlagsFiles]).

    Python [str] values are modelled by [string]; a character [ascii] is read as
    the Unicode code point of the same number (U+0000 .. U+00FF), so that
    [lower], [strip], the regular expressions and [sorted] below are the Python
    operations restricted to that range. *)

From Stdlib Require Import String Ascii List Bool Arith ZArith Lia.
From Stdlib Require Import DecimalString Sorting.Sorted Permutation.
Import ListNotations.

#[local] Set Warnings "-register-all".

Local Open Scope list_scope.
Local Open Scope string_scope.
Local Open Scope nat_scope.

(** ** The Python built-ins the scripts use *)

Module Py.

(** Code point of a character. *)
Definition ord (c : ascii) : nat := nat_of_ascii c.

Definition in_range (lo hi : nat) (c : ascii) : bool :=
  (lo <=? ord c) && (ord c <=? hi).

(** [str.lower] on one code point below U+0100: the ASCII capitals and the
    Latin-1 capitals U+00C0 .. U+00DE, the multiplication sign U+00D7 apart. *)
Definition is_upper (c : ascii) : bool :=
  in_range 65 90 c || (in_range 192 222 c && negb (ord c =? 215)).

Definition lower_char (c : ascii) : ascii :=
  if is_upper c then ascii_of_nat (ord c + 32) else c.

(** [s.lower()] *)
Fixpoint lower (s : string) : string :=
  match s with
  | EmptyString => EmptyString
  | String c r => String (lower_char c) (lower r)
  end.

(** [s.replace(a, b)] for one-character [a] and [b]. *)
Fixpoint replace_char (a b : ascii) (s : string) : string :=
  match s with
  | EmptyString => EmptyString
  | String c r => String (if Ascii.eqb c a then b else c) (replace_char a b r)
  end.

(** [s.split(sep)] for a one-character separator: never an empty list. *)
Fixpoint split (sep : ascii) (s : string) : list string :=
  match s with
  | EmptyString => [EmptyString]
  | String c r =>
      if Ascii.eqb c sep then EmptyString :: split sep r
      else match split sep r with
           | [] => [String c EmptyString]
           | p :: ps => String c p :: ps
           end
  end.

(** [sep.join(l)] *)
Definition join (sep : string) (l : list string) : string := String.concat sep l.

(** [s.startswith(p)] *)
Definition startswith (s p : string) : bool := String.prefix p s.

(** Truth value of a [str]: the empty string is false. *)
Definition truthy (s : string) : bool :=
  match s with EmptyString => false | _ => true end.

(** [enumerate(l)], from a start index. *)
Fixpoint enumerate_from {A : Type} (i : nat) (l : list A) : list (nat * A) :=
  match l with
  | [] => []
  | x :: r => (i, x) :: enumerate_from (S i) r
  end.

Definition enumerate {A : Type} (l : list A) : list (nat * A) := enumerate_from 0 l.

(** [str.isspace] on one code point below U+0100. *)
Definition is_space (c : ascii) : bool :=
  in_range 9 13 c || in_range 28 32 c || (ord c =? 133) || (ord c =? 160).

Fixpoint lstrip_by (f : ascii -> bool) (s : string) : string :=
  match s with
  | EmptyString => EmptyString
  | String c r => if f c then lstrip_by f r else s
  end.

Fixpoint rstrip_by (f : ascii -> bool) (s : string) : string :=
  match s with
  | EmptyString => EmptyString
  | String c r =>
      match rstrip_by f r with
      | EmptyString => if f c then EmptyString else String c EmptyString
      | r' => String c r'
      end
  end.

Definition strip_by (f : ascii -> bool) (s : string) : string :=
  rstrip_by f (lstrip_by f s).

(** [s.strip()] *)
Definition strip (s : string) : string := strip_by is_space s.

(** [s.strip(c)] for a one-character argument. *)
Definition strip_char (c : ascii) (s : string) : string := strip_by (Ascii.eqb c) s.

(** [str(n)] for an [int]. *)
Definition str_of_int (z : Z) : string := NilZero.string_of_int (Z.to_int z).

(** The text an f-string gives a non-negative [int] index. *)
Definition str_of_nat (n : nat) : string := str_of_int (Z.of_nat n).

(** [c in s] for a one-character [c]. *)
Fixpoint contains (c : ascii) (s : string) : bool :=
  match s with
  | EmptyString => false
  | String d r => Ascii.eqb d c || contains c r
  end.

(** The newline character and the double quote. *)
Definition nl : string := String "010"%char EmptyString.
Definition dquote : ascii := "034"%char.

(** [sorted(l)] on a list of [str]: code-point lexicographic order
    ([String.leb]), by stable insertion. *)
Fixpoint insert_sorted (x : string) (l : list string) : list string :=
  match l with
  | [] => [x]
  | y :: r => if String.leb x y then x :: l else y :: insert_sorted x r
  end.

Fixpoint sorted (l : list string) : list string :=
  match l with
  | [] => []
  | x :: r => insert_sorted x (sorted r)
  end.

(** [os.path.join(a, b)] on a POSIX system. *)
Definition path_join (a b : string) : string :=
  if startswith b "/" then b
  else if negb (truthy a) || startswith (String.string_of_list_ascii (rev (String.list_ascii_of_string a))) "/"
       then a ++ b
       else a ++ "/" ++ b.

End Py.

(** ** [build_artifact_name.py] *)

Module BuildArtifactName.

(** [sanitize]: dots to hyphens, then lowercase; the falsy (empty) string maps
    to the empty string. *)
Definition sanitize (s : string) : string :=
  if Py.truthy s then Py.lower (Py.replace_char "." "-" s) else EmptyString.

(** The [for i, p in enumerate(parts_s)] loop of [build_artifact_name]: the
    first part that starts with [hw] returns, [None] when the loop runs out. *)
Fixpoint scan_parts (project_s tag_s : string) (parts_s : list string)
    (todo : list (nat * string)) : option string :=
  match todo with
  | [] => None
  | (i, p) :: todo' =>
      if Py.startswith p "hw" then
        let new_parts := (firstn (i + 1) parts_s ++ [tag_s] ++ skipn (i + 1) parts_s)%list in
        Some (project_s ++ "_" ++ Py.join "_" new_parts)
      else scan_parts project_s tag_s parts_s todo'
  end.

Definition build_artifact_name (project configuration tag : string) : string :=
  let project_s := sanitize project in
  let tag_s := sanitize tag in
  let parts := if Py.truthy configuration then Py.split "_" configuration else [] in
  let parts_s := map sanitize parts in
  match scan_parts project_s tag_s parts_s (Py.enumerate parts_s) with
  | Some name => name
  | None =>
      match parts_s with
      | _ :: _ => project_s ++ "_" ++ tag_s ++ "_" ++ Py.join "_" parts_s
      | [] => project_s ++ "_" ++ tag_s
      end
  end.

(** [main]: the one line the script prints for its three required options. *)
Definition main (project config tag : string) : list string :=
  [build_artifact_name project config tag].

End BuildArtifactName.


(** ** [generate_cmake_flags_files.py] *)

Module GenerateCmakeFlagsFiles.

(** The values [json.load] returns.  A [float] is carried by the text [str]
    gives it; a [dict] is the list of its items in insertion order (its keys
    are pairwise distinct in every value Python builds). *)
Inductive pyval : Type :=
| VNone
| VBool (b : bool)
| VInt (z : Z)
| VFloat (text : string)
| VStr (s : string)
| VList (items : list pyval)
| VDict (items : list (string * pyval)).

(** An [OrderedDict] from [str] to [str]: its items in insertion order. *)
Definition odict : Type := list (string * string).

(** [d[k]] and [d.get(k)] on the items of a [dict]. *)
Fixpoint lookup {V : Type} (k : string) (items : list (string * V)) : option V :=
  match items with
  | [] => None
  | (k', v) :: r => if String.eqb k' k then Some v else lookup k r
  end.

Definition keys {V : Type} (items : list (string * V)) : list string := map fst items.
Definition values {V : Type} (items : list (string * V)) : list V := map snd items.

(** [d.get(k, default)] *)
Definition get_default (d : list (string * pyval)) (k : string) (default : pyval) : pyval :=
  match lookup k d with Some v => v | None => default end.

(** [d.get(k)] *)
Definition get (d : list (string * pyval)) (k : string) : pyval := get_default d k VNone.

(** [out[k] = v] on an [OrderedDict]: a key already present keeps its place. *)
Fixpoint od_set (k v : string) (out : odict) : odict :=
  match out with
  | [] => [(k, v)]
  | (k', v') :: r => if String.eqb k' k then (k', v) :: r else (k', v') :: od_set k v r
  end.

Definition is_dict (v : pyval) : bool :=
  match v with VDict _ => true | _ => false end.

(** [isinstance(v, Primitive)] with [Primitive = (str, int, float, bool, type(None))]. *)
Definition is_primitive (v : pyval) : bool :=
  match v with VList _ | VDict _ => false | _ => true end.

(** *** [str] and [repr] of a value *)

Definition hex_digit (n : nat) : ascii :=
  if n <? 10 then ascii_of_nat (48 + n) else ascii_of_nat (87 + n).

(** Code points below U+0100 that [repr] writes as an escape. *)
Definition not_printable (c : ascii) : bool :=
  (Py.ord c <? 32) || Py.in_range 127 160 c || (Py.ord c =? 173).

Definition repr_char (quote c : ascii) : string :=
  if Ascii.eqb c quote || Ascii.eqb c "\" then String "\" (String c EmptyString)
  else if Py.ord c =? 9 then "\t"
  else if Py.ord c =? 10 then "\n"
  else if Py.ord c =? 13 then "\r"
  else if not_printable c then
    String "\" (String "x" (String (hex_digit (Py.ord c / 16))
                              (String (hex_digit (Py.ord c mod 16)) EmptyString)))
  else String c EmptyString.

Fixpoint repr_chars (quote : ascii) (s : string) : string :=
  match s with
  | EmptyString => EmptyString
  | String c r => repr_char quote c ++ repr_chars quote r
  end.

(** [repr(s)] for a [str]. *)
Definition repr_str (s : string) : string :=
  let quote := if Py.contains "'" s && negb (Py.contains Py.dquote s)
               then Py.dquote else "'"%char in
  String quote (repr_chars quote s) ++ String quote EmptyString.

(** [repr(v)] *)
Fixpoint py_repr (v : pyval) : string :=
  match v with
  | VNone => "None"
  | VBool b => if b then "True" else "False"
  | VInt z => Py.str_of_int z
  | VFloat text => text
  | VStr s => repr_str s
  | VList items => "[" ++ Py.join ", " (map py_repr items) ++ "]"
  | VDict items =>
      "{" ++ Py.join ", " (map (fun kv => match kv with
                                          | (k, x) => repr_str k ++ ": " ++ py_repr x
                                          end) items) ++ "}"
  end.

(** [str(v)] *)
Definition py_str (v : pyval) : string :=
  match v with
  | VStr s => s
  | _ => py_repr v
  end.

(** *** The functions of the script *)

(** [re.sub(r'[^a-z0-9-]+', '-', s)]: every maximal run of characters outside
    the class becomes one hyphen.  [in_run] says that the previous character
    belonged to the run being replaced. *)
Definition outside_class (c : ascii) : bool :=
  negb (Py.in_range 97 122 c || Py.in_range 48 57 c || (Py.ord c =? 45)).

Fixpoint sub_outside_runs (in_run : bool) (s : string) : string :=
  match s with
  | EmptyString => EmptyString
  | String c r =>
      if outside_class c then
        if in_run then sub_outside_runs true r
        else String "-" (sub_outside_runs true r)
      else String c (sub_outside_runs false r)
  end.

(** [re.sub(r'-{2,}', '-', s)]: a hyphen followed by a hyphen is inside a run
    of two or more and is dropped, so that each such run leaves one hyphen. *)
Fixpoint collapse_hyphens (s : string) : string :=
  match s with
  | EmptyString => EmptyString
  | String c r =>
      if Ascii.eqb c "-" then
        match r with
        | String d _ => if Ascii.eqb d "-" then collapse_hyphens r
                        else String c (collapse_hyphens r)
        | EmptyString => String c EmptyString
        end
      else String c (collapse_hyphens r)
  end.

Definition sanitize_value_for_filename (s : pyval) : string :=
  match s with
  | VNone => "none"
  | _ =>
      let s_str := Py.lower (Py.strip (py_str s)) in
      if negb (Py.truthy s_str) then "empty"
      else
        let s_str := Py.replace_char "_" "-" s_str in
        let s_str := sub_outside_runs false s_str in
        let s_str := collapse_hyphens s_str in
        let s_str := Py.strip_char "-" s_str in
        if Py.truthy s_str then s_str else "empty"
  end.

Definition stringify_primitive (v : pyval) : string :=
  match v with
  | VBool b => if b then "ON" else "OFF"
  | VNone => EmptyString
  | _ => py_str v
  end.

(** One turn of the loop of [collect_dict_flags]. *)
Definition collect_step (d : list (string * pyval)) (out : odict) (k : string) : odict :=
  match lookup k d with
  | Some v => if is_primitive v then od_set k (stringify_primitive v) out else out
  | None => out
  end.

Definition collect_dict_flags (d : pyval) : odict :=
  match d with
  | VDict items => fold_left (collect_step items) (Py.sorted (keys items)) []
  | _ => []
  end.

(** The loop [for k, v in src.items(): merged[k] = v]. *)
Definition assign_all (src merged : odict) : odict :=
  fold_left (fun m kv => od_set (fst kv) (snd kv) m) src merged.

Definition merge_flags (hw_flags sw_flags : odict) : odict :=
  let merged := [] in
  let merged := assign_all hw_flags merged in
  assign_all sw_flags merged.

(** *** [is_numeric_string]: a full match of
    [[+-]?\d+(\.\d+)?([eE][+-]?\d+)?] *)

Definition is_digit (c : ascii) : bool := Py.in_range 48 57 c.

Definition opt_sign (s : string) : string :=
  match s with
  | String c r => if Ascii.eqb c "+" || Ascii.eqb c "-" then r else s
  | EmptyString => s
  end.

(** [\d+]: the rest of the string after its longest run of digits, [None] when
    it starts with no digit. *)
Definition digits1 (s : string) : option string :=
  match s with
  | String c r => if is_digit c then Some (Py.lstrip_by is_digit r) else None
  | EmptyString => None
  end.

Definition is_numeric_string (s : string) : bool :=
  if String.eqb s EmptyString then false
  else
    match digits1 (opt_sign s) with
    | None => false
    | Some after_int =>
        let after_frac :=
          match after_int with
          | String c r => if Ascii.eqb c "." then digits1 r else Some after_int
          | EmptyString => Some after_int
          end in
        match after_frac with
        | None => false
        | Some EmptyString => true
        | Some (String c r) =>
            if Ascii.eqb c "e" || Ascii.eqb c "E" then
              match digits1 (opt_sign r) with
              | Some EmptyString => true
              | _ => false
              end
            else false
        end
    end.

Definition flag_line (kv : string * string) : string :=
  let (k, v) := kv in
  if String.eqb v EmptyString then "-D" ++ k
  else if String.eqb v "ON" || String.eqb v "OFF" || is_numeric_string v
       then "-D" ++ k ++ "=" ++ v
       else "-D" ++ k ++ "=" ++ v.

(** [flags_to_lines]: the loop appends one line per item. *)
Definition flags_to_lines (flags : odict) : list string :=
  fold_left (fun parts kv => parts ++ [flag_line kv])%list flags [].

(** [hw_filename_base_from_hw_flags].  The values of [hw_flags] are [str], so
    the test [v is not None] of the comprehension holds for each of them; the
    test [str(v).strip() != ""] is the filter below. *)
Definition hw_filename_base_from_hw_flags (hw_flags : odict) (hw_index : nat) : string :=
  let vals := map (fun v => sanitize_value_for_filename (VStr v))
                  (filter (fun v => negb (String.eqb (Py.strip (py_str (VStr v))) EmptyString))
                          (values hw_flags)) in
  match vals with
  | _ :: _ => Py.join "_" vals
  | [] => "hw" ++ Py.str_of_nat hw_index
  end.

(** *** [main] *)

(** The parsed command line. *)
Record args : Type := { input : string; outdir : string; dry_run : bool }.

(** What reading and parsing the input file gives. *)
Inductive load_result : Type :=
| FileNotFoundError
| JSONDecodeError (e : string)
| Loaded (data : pyval).

(** What the script does to the outside, in order. *)
Inductive event : Type :=
| Stdout (text : string)
| Stderr (text : string)
| Makedirs (path : string)
| WriteFile (path content : string).

(** The outside: the input file, whether [os.makedirs] raises [OSError] (its
    text, with the diagnostic lines the handler manages to print), and whether
    writing a path raises [OSError], given what happened before.  What a
    failed write leaves on disk is not modelled.
    The model covers the runs in which [OSError] is the only exception a
    write raises and no [print] raises: a text of code points below U+0100
    is always encodable as UTF-8, so that [write] itself cannot raise
    [UnicodeEncodeError] on it; a run in which a stream refuses a [print] has
    no counterpart here. *)
Record env : Type := {
  load : load_result;
  makedirs_error : option (string * list string);
  write_error : list event -> string -> option string
}.

(** How the process ends: [main] returns, [sys.exit(code)], or an exception
    nothing catches (the interpreter then prints a traceback and exits with
    status 1). *)
Inductive status : Type :=
| Returned
| SysExit (code : nat)
| Uncaught (exception : string).

Definition exit_code (s : status) : nat :=
  match s with
  | Returned => 0
  | SysExit code => code
  | Uncaught _ => 1
  end.

Record state : Type := { log : list event; created_files : list string }.

Definition fixed_ext : string := ".txt".

(** The file name chosen for the software entry [sw] at [sw_index]. *)
Definition sw_filename (hw_base : string) (sw_index : nat) (sw : list (string * pyval)) : string :=
  let sw_name_raw := get sw "name" in
  if match sw_name_raw with VNone => false | _ => true end
     && negb (String.eqb (Py.strip (py_str sw_name_raw)) EmptyString)
  then
    let sw_name_token := sanitize_value_for_filename sw_name_raw in
    hw_base ++ "_" ++ sw_name_token ++ fixed_ext
  else if sw_index =? 0 then hw_base ++ fixed_ext
  else hw_base ++ "_sw-conf" ++ Py.str_of_nat sw_index ++ fixed_ext.

(** [hw.get('hw_flags', {}) if isinstance(hw.get('hw_flags', {}), dict) else {}],
    and the same for [sw_flags]. *)
Definition flags_raw (d : list (string * pyval)) (k : string) : pyval :=
  if is_dict (get_default d k (VDict [])) then get_default d k (VDict []) else VDict [].

(** The two nested loops of [main], over what is done with a file name and
    its lines (written twice in the source, once per branch). *)
Section Loops.

Context {S : Type} (emit : string -> list string -> S -> S).

Definition sw_body (hw_flags : odict) (hw_base : string) (st : S) (ix : nat * pyval) : S :=
  let (sw_index, sw) := ix in
  match sw with
  | VDict sw_items =>
      let sw_flags := collect_dict_flags (flags_raw sw_items "sw_flags") in
      let merged := merge_flags hw_flags sw_flags in
      emit (sw_filename hw_base sw_index sw_items) (flags_to_lines merged) st
  | _ => st
  end.

Definition hw_body (st : S) (ix : nat * pyval) : S :=
  let (hw_index, hw) := ix in
  match hw with
  | VDict hw_items =>
      let hw_flags := collect_dict_flags (flags_raw hw_items "hw_flags") in
      let hw_base := hw_filename_base_from_hw_flags hw_flags hw_index in
      match get hw_items "sw_configuration_list" with
      | VList (sw0 :: sws) =>
          fold_left (sw_body hw_flags hw_base) (Py.enumerate (sw0 :: sws)) st
      | _ => emit (hw_base ++ fixed_ext) (flags_to_lines hw_flags) st
      end
  | _ => st
  end.

Definition hw_loop (hw_list : list pyval) (st : S) : S :=
  fold_left hw_body (Py.enumerate hw_list) st.

End Loops.

(** What [main] does with one file name and its lines. *)
Definition emit_io (a : args) (E : env) (filename : string) (lines : list string)
    (st : state) : state :=
  let out_path := Py.path_join (outdir a) filename in
  if dry_run a then
    let combined := match lines with
                    | _ :: _ => Py.join Py.nl lines
                    | [] => "(no flags)"
                    end in
    {| log := log st ++ [Stdout ("[DRY RUN] " ++ out_path ++ " -> " ++ combined)];
       created_files := created_files st |}
  else
    match write_error E (log st) out_path with
    | None =>
        {| log := log st ++ [WriteFile out_path (Py.join Py.nl lines ++ Py.nl)];
           created_files := created_files st ++ [out_path] |}
    | Some e =>
        {| log := log st ++ [Stderr ("Error: failed to write file '" ++ out_path ++ "': " ++ e)];
           created_files := created_files st |}
    end.

(** The closing report. *)
Definition summary (a : args) (st : state) : list event :=
  if dry_run a then [Stdout "Dry run completed."]
  else
    match created_files st with
    | _ :: _ =>
        Stdout ("Created files (" ++ Py.str_of_nat (List.length (created_files st)) ++ "):")
        :: map (fun p => Stdout (" - " ++ p)) (created_files st)
    | [] => [Stdout "No files were created."]
    end.

Definition main (a : args) (E : env) : status * list event :=
  match load E with
  | FileNotFoundError =>
      (SysExit 2, [Stderr ("Error: input file '" ++ input a ++ "' not found.")])
  | JSONDecodeError e =>
      (SysExit 2, [Stderr ("Error: failed to parse JSON in '" ++ input a ++ "': " ++ e)])
  | Loaded (VDict data) =>
      match get data "hw_configuration_list" with
      | VList hw_list =>
          match makedirs_error E with
          | Some (e, diagnostics) =>
              (SysExit 3,
               Makedirs (outdir a)
               :: Stderr ("Error: failed to create output directory '" ++ outdir a ++ "': " ++ e)
               :: map Stderr diagnostics)
          | None =>
              let st := hw_loop (emit_io a E) hw_list
                          {| log := [Makedirs (outdir a)]; created_files := [] |} in
              (Returned, (log st ++ summary a st)%list)
          end
      | _ =>
          (SysExit 2,
           [Stderr "Error: 'hw_configuration_list' not found or is not a list in the input JSON."])
      end
  | Loaded _ =>
      (* [data.get] on a value that is no [dict]: nothing catches the error;
         the text of the traceback is not modelled. *)
      (Uncaught "AttributeError", [])
  end.

(** *** The files [main] plans, without the outside *)

(** The loops run on a list that records each (file name, lines) pair. *)
Definition record (filename : string) (lines : list string)
    (acc : list (string * list string)) : list (string * list string) :=
  (acc ++ [(filename, lines)])%list.

(** The artifacts of the hardware entry [hw] found at [hw_index]. *)
Definition hw_artifacts (hw_index : nat) (hw : pyval) : list (string * list string) :=
  hw_body record [] (hw_index, hw).

(** The artifacts of a whole [hw_configuration_list]. *)
Definition artifacts (hw_list : list pyval) : list (string * list string) :=
  hw_loop record hw_list [].

End GenerateCmakeFlagsFiles.

(** ** Vocabulary of the statements *)

(** A part that does not start with [hw]. *)
Definition no_hw (q : string) : bool := negb (Py.startswith q "hw").

(** Code-point lexicographic order on [str], strict and large. *)
Definition str_lt (a b : string) : Prop := String.ltb a b = true.
Definition str_le (a b : string) : Prop := String.leb a b = true.

(** [k in l] for a list of [str]. *)
Definition mem (k : string) (l : list string) : bool := existsb (String.eqb k) l.

(** A flag map: an [OrderedDict] whose keys come in strictly increasing
    order, as [collect_dict_flags] builds them. *)
Definition is_flag_map (m : GenerateCmakeFlagsFiles.odict) : Prop :=
  StronglySorted str_lt (GenerateCmakeFlagsFiles.keys m).

(** The flag a [dict] gives for the key [k]: the text of its value when the
    value is primitive. *)
Definition flag_of (items : list (string * GenerateCmakeFlagsFiles.pyval)) (k : string)
    : option string :=
  match GenerateCmakeFlagsFiles.lookup k items with
  | Some v => if GenerateCmakeFlagsFiles.is_primitive v
              then Some (GenerateCmakeFlagsFiles.stringify_primitive v) else None
  | None => None
  end.

(** The line the specification gives an item of a flag map. *)
Definition rendered (kv : string * string) : string :=
  match snd kv with
  | EmptyString => "-D" ++ fst kv
  | _ => "-D" ++ fst kv ++ "=" ++ snd kv
  end.

(** Reading a line of a flag file back, as the specification describes it:
    the text after the [-D] prefix is cut at its first [=]; with no [=] the
    value is absent. *)
Fixpoint cut_at (c : ascii) (s : string) : option (string * string) :=
  match s with
  | EmptyString => None
  | String a r =>
      if Ascii.eqb a c then Some (EmptyString, r)
      else match cut_at c r with
           | Some (k, v) => Some (String a k, v)
           | None => None
           end
  end.

Definition parse_flag_line (line : string) : option (string * option string) :=
  match line with
  | String "-" (String "D" rest) =>
      match cut_at "=" rest with
      | Some (k, v) => Some (k, Some v)
      | None => Some (rest, None)
      end
  | _ => None
  end.

(** The pair a line is expected to give back: an empty value is absent. *)
Definition flag_pair (kv : string * string) : string * option string :=
  (fst kv, match snd kv with EmptyString => None | v => Some v end).

(** Running a list of (file name, lines) pairs through [emit]. *)
Definition replay {S : Type} (emit : string -> list string -> S -> S)
    (arts : list (string * list string)) (st : S) : S :=
  fold_left (fun st fl => emit (fst fl) (snd fl) st) arts st.

(** The event an artifact leaves in a dry run, and when its file is written. *)
Definition dry_line (a : GenerateCmakeFlagsFiles.args) (fl : string * list string)
    : GenerateCmakeFlagsFiles.event :=
  GenerateCmakeFlagsFiles.Stdout
    ("[DRY RUN] " ++ Py.path_join (GenerateCmakeFlagsFiles.outdir a) (fst fl) ++ " -> "
     ++ match snd fl with [] => "(no flags)" | _ => Py.join Py.nl (snd fl) end).

Definition written (a : GenerateCmakeFlagsFiles.args) (fl : string * list string)
    : GenerateCmakeFlagsFiles.event :=
  GenerateCmakeFlagsFiles.WriteFile
    (Py.path_join (GenerateCmakeFlagsFiles.outdir a) (fst fl))
    (Py.join Py.nl (snd fl) ++ Py.nl).

(** Every character of [s] satisfies [f]. *)
Fixpoint all_chars (f : ascii -> bool) (s : string) : bool :=
  match s with
  | EmptyString => true
  | String c r => f c && all_chars f r
  end.

(** A text of white space only (the empty text too). *)
Definition blank (s : string) : bool := all_chars Py.is_space s.

(** A software entry is named when its [name] is present, not null, and its
    text is not blank. *)
Definition named (sw : list (string * GenerateCmakeFlagsFiles.pyval)) : bool :=
  match GenerateCmakeFlagsFiles.get sw "name" with
  | GenerateCmakeFlagsFiles.VNone => false
  | v => negb (blank (GenerateCmakeFlagsFiles.py_str v))
  end.

(** The characters of a file name token: a to z, 0 to 9 and the hyphen. *)
Definition in_class (c : ascii) : bool := negb (GenerateCmakeFlagsFiles.outside_class c).



(** A character an artifact name may hold: no dot and no capital letter of
    the code points below U+0100 (A to Z, and U+00C0 to U+00DE but U+00D7). *)
Definition name_char (c : ascii) : bool := negb (Py.is_upper c) && negb (Ascii.eqb c ".").

(** No two hyphens in a row. *)
Fixpoint no_hyphen_pair (s : string) : bool :=
  match s with
  | String c ((String d _) as r) =>
      negb (Ascii.eqb c "-" && Ascii.eqb d "-") && no_hyphen_pair r
  | _ => true
  end.

(** The first and the last character of a text, when it has one. *)
Definition first_char (s : string) : option ascii :=
  match s with String c _ => Some c | EmptyString => None end.

Fixpoint last_char (s : string) : option ascii :=
  match s with
  | EmptyString => None
  | String c EmptyString => Some c
  | String _ r => last_char r
  end.

(** The shape of a file name token: not empty, made of a to z, 0 to 9 and
    hyphens, with no hyphen at either end and no two hyphens in a row. *)
Definition token_shape (t : string) : Prop :=
  t <> EmptyString /\
  all_chars in_class t = true /\
  first_char t <> Some "-"%char /\
  last_char t <> Some "-"%char /\
  no_hyphen_pair t = true.

(** The texts the regular expression of [is_numeric_string] describes,
    [[+-]?\d+(\.\d+)?([eE][+-]?\d+)?]: an optional sign, digits, an optional
    fraction (a dot and digits) and an optional exponent (e or E, an optional
    sign, digits). *)
Definition digits (d : string) : Prop :=
  d <> EmptyString /\ all_chars GenerateCmakeFlagsFiles.is_digit d = true.

Definition sign (s : string) : Prop := s = EmptyString \/ s = "+" \/ s = "-".

(** A text that does not start with a digit. *)
Definition no_digit_first (r : string) : Prop :=
  forall c, first_char r = Some c -> GenerateCmakeFlagsFiles.is_digit c = false.

Definition numeric_text (s : string) : Prop :=
  exists sg int_part frac expo,
    s = sg ++ int_part ++ frac ++ expo /\
    sign sg /\ digits int_part /\
    (frac = EmptyString \/ exists f, digits f /\ frac = "." ++ f) /\
    (expo = EmptyString \/
     exists mark sg' e, (mark = "e" \/ mark = "E") /\ sign sg' /\ digits e /\
                        expo = mark ++ sg' ++ e).

(** A character of an artifact file name: a token character, the underscore
    between tokens, or the dot of the extension. *)
Definition file_char (c : ascii) : bool :=
  in_class c || Ascii.eqb c "_" || Ascii.eqb c ".".

(** The paths of the files a log shows written, in order. *)
Definition written_paths (l : list GenerateCmakeFlagsFiles.event) : list string :=
  flat_map (fun e => match e with
                     | GenerateCmakeFlagsFiles.WriteFile p _ => [p]
                     | _ => []
                     end) l.

(** The closing report of a run that writes, for the paths it created. *)
Definition report (paths : list string) : list GenerateCmakeFlagsFiles.event :=
  match paths with
  | _ :: _ =>
      GenerateCmakeFlagsFiles.Stdout
        ("Created files (" ++ Py.str_of_nat (List.length paths) ++ "):")
      :: map (fun p => GenerateCmakeFlagsFiles.Stdout (" - " ++ p)) paths
  | [] => [GenerateCmakeFlagsFiles.Stdout "No files were created."]
  end.

(** What a run that writes leaves for one artifact: its file, or the report
    that the write was refused. *)
Definition attempt (a : GenerateCmakeFlagsFiles.args) (fl : string * list string)
    (e : GenerateCmakeFlagsFiles.event) : Prop :=
  e = written a fl \/
  exists msg,
    e = GenerateCmakeFlagsFiles.Stderr
          ("Error: failed to write file '"
           ++ Py.path_join (GenerateCmakeFlagsFiles.outdir a) (fst fl) ++ "': " ++ msg).

(** * Properties *)

Import GenerateCmakeFlagsFiles.

Example ex_nucleo :
  artifacts [VDict [("hw_flags", VDict [("OPT", VBool true); ("BOARD", VStr "nucleo")])]]
  = [("nucleo_on.txt", ["-DBOARD=nucleo"; "-DOPT=ON"])].
Proof. reflexivity. Qed.

Example ex_sw :
  map fst (artifacts [VInt 3; VDict [("hw_flags", VDict [("X", VNone); ("L", VList [])]);
       ("sw_configuration_list", VList [VDict []; VDict [("name", VStr "Rel_1.0 ")]; VInt 1; VDict [("name", VStr " ")]; VDict [("name", VList [VStr "a'"; VInt 2])]])]])
  = ["hw1.txt"; "hw1_rel-1-0.txt"; "hw1_sw-conf3.txt"; "hw1_a-2.txt"].
Proof. vm_compute. reflexivity. Qed.

(** ** Joining and splitting *)

Section JoinSplit.

Variable sep : string.

Lemma join_cons (x y : string) (l : list string) :
  Py.join sep (x :: y :: l) = x ++ sep ++ Py.join sep (y :: l).
Proof. reflexivity. Qed.

End JoinSplit.

Lemma append_assoc (a b c : string) : (a ++ b) ++ c = a ++ b ++ c.
Proof. induction a as [|x a IH]; simpl; [reflexivity | now rewrite IH]. Qed.

Lemma append_nil_r (a : string) : a ++ EmptyString = a.
Proof. induction a as [|x a IH]; simpl; [reflexivity | now rewrite IH]. Qed.

(** Splitting then joining on the same character gives the string back. *)
Lemma split_nonempty (c : ascii) (s : string) : Py.split c s <> [].
Proof.
  destruct s as [|a s]; simpl; [discriminate|].
  destruct (Ascii.eqb a c); [discriminate|].
  destruct (Py.split c s); discriminate.
Qed.

Lemma join_split (c : ascii) (s : string) :
  Py.join (String c EmptyString) (Py.split c s) = s.
Proof.
  induction s as [|a s IH]; [reflexivity|].
  simpl Py.split. destruct (Ascii.eqb_spec a c) as [->|Hne].
  - pose proof (split_nonempty c s) as Hs.
    destruct (Py.split c s) as [|p ps]; [contradiction|].
    rewrite join_cons, IH. reflexivity.
  - destruct (Py.split c s) as [|p ps] eqn:E.
    + exfalso. eapply split_nonempty; eassumption.
    + rewrite <- IH. destruct ps; reflexivity.
Qed.

(** No part of a split holds the separator. *)
Lemma split_no_sep (c : ascii) (s : string) :
  Forall (fun p => Py.contains c p = false) (Py.split c s).
Proof.
  induction s as [|a s IH]; simpl.
  - repeat constructor.
  - destruct (Ascii.eqb a c) eqn:E.
    + constructor; [reflexivity | exact IH].
    + destruct (Py.split c s) as [|p ps].
      * repeat constructor. simpl. now rewrite E.
      * inversion IH; subst. constructor; [|assumption].
        simpl. rewrite E. assumption.
Qed.

Lemma split_sep_app (c : ascii) (p s : string) :
  Py.contains c p = false -> Py.split c (p ++ String c s) = p :: Py.split c s.
Proof.
  induction p as [|a p IH]; simpl.
  - now rewrite Ascii.eqb_refl.
  - destruct (Ascii.eqb a c); simpl; [discriminate|].
    intros H. now rewrite (IH H).
Qed.

(** The lines of a text made of newline-free lines, each followed by a
    newline, are these lines (and the empty rest after the last newline). *)
Lemma split_join_lines (c : ascii) (l : list string) :
  l <> [] ->
  Forall (fun p => Py.contains c p = false) l ->
  Py.split c (Py.join (String c EmptyString) l ++ String c EmptyString)
  = (l ++ [EmptyString])%list.
Proof.
  induction l as [|x l IH]; [congruence|].
  intros _ Hall. inversion Hall as [|? ? Hx Hl]; subst.
  destruct l as [|y l].
  - simpl Py.join. now rewrite split_sep_app.
  - rewrite join_cons.
    change (String c EmptyString ++ Py.join (String c EmptyString) (y :: l))
      with (String c (Py.join (String c EmptyString) (y :: l))).
    rewrite append_assoc.
    change (String c (Py.join (String c EmptyString) (y :: l)) ++ String c EmptyString)
      with (String c (Py.join (String c EmptyString) (y :: l) ++ String c EmptyString)).
    rewrite split_sep_app by assumption.
    rewrite IH by (try discriminate; assumption). reflexivity.
Qed.

(** ** [build_artifact_name] *)

Section ArtifactName.

Import BuildArtifactName.

Lemma sanitize_eq (s : string) : sanitize s = Py.lower (Py.replace_char "." "-" s).
Proof. destruct s; reflexivity. Qed.

(** The loop, started after the parts [done], on the parts [todo] left. *)
Lemma scan_parts_cases (project_s tag_s : string) (todo done : list string) :
  forallb no_hw done = true ->
  (exists pre p post,
      todo = (pre ++ p :: post)%list /\ Py.startswith p "hw" = true /\
      forallb no_hw (done ++ pre)%list = true /\
      scan_parts project_s tag_s (done ++ todo)%list
        (Py.enumerate_from (List.length done) todo)
      = Some (project_s ++ "_" ++ Py.join "_" ((done ++ pre) ++ p :: tag_s :: post)%list))
  \/ (forallb no_hw (done ++ todo)%list = true /\
      scan_parts project_s tag_s (done ++ todo)%list
        (Py.enumerate_from (List.length done) todo)
      = None).
Proof.
  revert done. induction todo as [|p todo IH]; intros done Hdone.
  - right. rewrite app_nil_r. split; [assumption | reflexivity].
  - simpl Py.enumerate_from. simpl scan_parts.
    destruct (Py.startswith p "hw") eqn:Hp.
    + left. exists [], p, todo. rewrite app_nil_r.
      repeat split; try assumption.
      replace (List.length done + 1) with (List.length (done ++ [p])%list)
        by (rewrite length_app; reflexivity).
      replace (done ++ p :: todo)%list with ((done ++ [p]) ++ todo)%list
        by (rewrite <- app_assoc; reflexivity).
      rewrite firstn_app, skipn_app, firstn_all, skipn_all, Nat.sub_diag.
      simpl. rewrite app_nil_r, <- app_assoc. reflexivity.
    + specialize (IH (done ++ [p])%list).
      rewrite length_app, Nat.add_1_r, <- app_assoc in IH. simpl in IH.
      destruct IH as [(pre & q & post & E & Hq & Hpre & Hscan) | [Hall Hscan]].
      * rewrite forallb_app, Hdone. simpl. unfold no_hw at 1. now rewrite Hp.
      * left. exists (p :: pre), q, post. subst todo.
        rewrite <- app_assoc in Hpre, Hscan. simpl in Hpre, Hscan.
        repeat split; try assumption.
        rewrite Hscan. rewrite <- !app_assoc. reflexivity.
      * right. split; assumption.
Qed.

End ArtifactName.

(** C5: [build_artifact_name] sanitizes project, tag and every part of the
    configuration split on underscores (dots to hyphens, lowercased); the tag
    goes right after the first part that starts with [hw], and the name is the
    project and the parts joined by underscores; with no such part the name is
    project, tag and the parts joined by underscores (project and tag alone
    when there is no part).  The example of the specification is the last
    conjunct. *)
Theorem build_artifact_name_spec (project configuration tag : string) :
  let sanitize := BuildArtifactName.sanitize in
  let name := BuildArtifactName.build_artifact_name project configuration tag in
  let parts := match configuration with
               | EmptyString => []
               | _ => Py.split "_" configuration
               end in
  let parts_s := map sanitize parts in
  (forall s, sanitize s = Py.lower (Py.replace_char "." "-" s)) /\
  ((exists pre p post,
       parts_s = (pre ++ p :: post)%list /\
       Py.startswith p "hw" = true /\
       forallb no_hw pre = true /\
       name = Py.join "_" (sanitize project :: (pre ++ p :: sanitize tag :: post)%list))
   \/ (forallb no_hw parts_s = true /\
       name = Py.join "_" (sanitize project :: sanitize tag :: parts_s))) /\
  (parts_s = [] -> name = sanitize project ++ "_" ++ sanitize tag) /\
  BuildArtifactName.build_artifact_name "My.Proj" "hw_board_debug" "v1.2.3"
  = "my-proj_hw_v1-2-3_board_debug".
Proof.
  intros sanitize name parts parts_s. subst sanitize.
  split; [exact sanitize_eq|].
  set (S := BuildArtifactName.sanitize) in *.
  assert (Hparts : parts_s = map S
            (if Py.truthy configuration then Py.split "_" configuration else [])).
  { subst parts_s parts. destruct configuration; reflexivity. }
  assert (Hname : name =
            match BuildArtifactName.scan_parts (S project) (S tag) parts_s
                    (Py.enumerate parts_s) with
            | Some n => n
            | None => match parts_s with
                      | _ :: _ => S project ++ "_" ++ S tag ++ "_" ++ Py.join "_" parts_s
                      | [] => S project ++ "_" ++ S tag
                      end
            end).
  { subst name. unfold BuildArtifactName.build_artifact_name. fold S.
    rewrite <- Hparts. reflexivity. }
  clearbody name parts_s. clear Hparts parts.
  destruct (scan_parts_cases (S project) (S tag) parts_s [] eq_refl)
    as [(pre & p & post & E & Hp & Hpre & Hscan) | [Hall Hscan]];
    simpl in Hscan; unfold Py.enumerate in Hname; rewrite Hscan in Hname.
  - split; [|split; [|reflexivity]].
    + left. exists pre, p, post. repeat split; try assumption.
      rewrite Hname. destruct pre; reflexivity.
    + intros ->. destruct pre; discriminate.
  - split; [|split; [|reflexivity]].
    + right. split; [assumption|]. rewrite Hname. destruct parts_s; reflexivity.
    + intros ->. assumption.
Qed.

(** ** The order of [str] and [sorted] *)

Section StrOrder.

Lemma ascii_compare_trans (a b c : ascii) :
  Ascii.compare a b = Lt -> Ascii.compare b c = Lt -> Ascii.compare a c = Lt.
Proof.
  unfold Ascii.compare. rewrite !N.compare_lt_iff. apply N.lt_trans.
Qed.

Lemma compare_trans (a b c : string) :
  String.compare a b = Lt -> String.compare b c = Lt -> String.compare a c = Lt.
Proof.
  revert b c. induction a as [|x a IH]; intros [|y b] [|z c]; simpl; try congruence.
  destruct (Ascii.compare x y) eqn:Exy; try discriminate;
    destruct (Ascii.compare y z) eqn:Eyz; try discriminate; intros H1 H2.
  - apply Ascii.compare_eq_iff in Exy. subst y. rewrite Eyz. eauto.
  - apply Ascii.compare_eq_iff in Exy. subst y. now rewrite Eyz.
  - apply Ascii.compare_eq_iff in Eyz. subst z. now rewrite Exy.
  - now rewrite (ascii_compare_trans _ _ _ Exy Eyz).
Qed.

Lemma compare_refl (a : string) : String.compare a a = Eq.
Proof.
  induction a as [|x a IH]; simpl; [reflexivity|].
  unfold Ascii.compare. now rewrite N.compare_refl.
Qed.

Lemma str_le_cases (a b : string) : str_le a b <-> a = b \/ str_lt a b.
Proof.
  unfold str_le, str_lt, String.leb, String.ltb.
  destruct (String.compare a b) eqn:E; split; intros H; try discriminate; auto.
  - left. now apply String.compare_eq_iff.
  - destruct H as [->|H]; [|discriminate].
    rewrite compare_refl in E. discriminate.
Qed.

Lemma str_lt_irrefl (a : string) : ~ str_lt a a.
Proof.
  unfold str_lt, String.ltb.
  rewrite compare_refl. discriminate.
Qed.

Lemma str_lt_trans (a b c : string) : str_lt a b -> str_lt b c -> str_lt a c.
Proof.
  unfold str_lt, String.ltb.
  destruct (String.compare a b) eqn:E1; try discriminate.
  destruct (String.compare b c) eqn:E2; try discriminate.
  now rewrite (compare_trans _ _ _ E1 E2).
Qed.

Lemma str_le_trans (a b c : string) : str_le a b -> str_le b c -> str_le a c.
Proof.
  rewrite !str_le_cases. intros [->|H1] [->|H2]; auto.
  right. eapply str_lt_trans; eassumption.
Qed.

Lemma str_le_lt (a b : string) : str_le a b -> a <> b -> str_lt a b.
Proof. rewrite str_le_cases. intros [->|H] Hne; [contradiction | assumption]. Qed.

Lemma insert_sorted_perm (x : string) (l : list string) :
  Permutation (Py.insert_sorted x l) (x :: l).
Proof.
  induction l as [|y l IH]; simpl; [reflexivity|].
  destruct (String.leb x y); [reflexivity|].
  rewrite IH. apply perm_swap.
Qed.

Lemma sorted_perm (l : list string) : Permutation (Py.sorted l) l.
Proof.
  induction l as [|x l IH]; simpl; [reflexivity|].
  rewrite insert_sorted_perm. now constructor.
Qed.

Lemma insert_sorted_sorted (x : string) (l : list string) :
  StronglySorted str_le l -> StronglySorted str_le (Py.insert_sorted x l).
Proof.
  induction 1 as [|y l Hl IH Hy]; simpl.
  - repeat constructor.
  - destruct (String.leb x y) eqn:E.
    + constructor; [now constructor|].
      constructor; [exact E|].
      eapply Forall_impl; [|exact Hy]. intros z Hz.
      eapply str_le_trans; eassumption.
    + constructor; [exact IH|].
      rewrite (insert_sorted_perm x l). constructor; [|exact Hy].
      destruct (String.leb_total x y) as [H|H]; [congruence | exact H].
Qed.

Lemma sorted_sorted (l : list string) : StronglySorted str_le (Py.sorted l).
Proof.
  induction l as [|x l IH]; simpl; [constructor | now apply insert_sorted_sorted].
Qed.

Lemma mem_In (k : string) (l : list string) : mem k l = true <-> In k l.
Proof.
  unfold mem. rewrite existsb_exists. split.
  - intros (x & Hx & E). apply String.eqb_eq in E. now subst.
  - intros H. exists k. split; [assumption | apply String.eqb_refl].
Qed.

Lemma mem_false (k : string) (l : list string) : mem k l = false <-> ~ In k l.
Proof.
  rewrite <- mem_In. destruct (mem k l); split; congruence.
Qed.

Lemma strictly_sorted_snoc (l : list string) (x : string) :
  StronglySorted str_lt l -> Forall (fun a => str_lt a x) l ->
  StronglySorted str_lt (l ++ [x])%list.
Proof.
  induction 1 as [|y l Hl IH Hy]; intros Hx; simpl.
  - repeat constructor.
  - inversion Hx; subst. constructor; [auto|].
    apply Forall_app. split; [assumption | now constructor].
Qed.

Lemma strictly_sorted_NoDup (l : list string) : StronglySorted str_lt l -> NoDup l.
Proof.
  induction 1 as [|y l Hl IH Hy]; constructor; [|assumption].
  intros Hin. rewrite Forall_forall in Hy. exact (str_lt_irrefl y (Hy y Hin)).
Qed.

Lemma strictly_sorted_filter (f : string -> bool) (l : list string) :
  StronglySorted str_lt l -> StronglySorted str_lt (filter f l).
Proof.
  induction 1 as [|y l Hl IH Hy]; simpl; [constructor|].
  destruct (f y); [|assumption].
  constructor; [assumption|].
  rewrite Forall_forall in *. intros z Hz. apply filter_In in Hz. now apply Hy.
Qed.

End StrOrder.

(** ** [OrderedDict] assignment *)

Section OrderedDict.

Lemma lookup_od_set (k v k' : string) (out : odict) :
  lookup k' (od_set k v out) = if String.eqb k k' then Some v else lookup k' out.
Proof.
  induction out as [|[a va] out IH]; simpl.
  - destruct (String.eqb k k'); reflexivity.
  - destruct (String.eqb_spec a k) as [->|Hak]; simpl.
    + destruct (String.eqb k k'); reflexivity.
    + rewrite IH. destruct (String.eqb_spec a k') as [->|Hak'].
      * destruct (String.eqb_spec k k'); [congruence | reflexivity].
      * reflexivity.
Qed.

Lemma keys_od_set (k v : string) (out : odict) :
  keys (od_set k v out) = if mem k (keys out) then keys out else (keys out ++ [k])%list.
Proof.
  induction out as [|[a va] out IH]; simpl; [reflexivity|].
  rewrite (String.eqb_sym k a).
  destruct (String.eqb a k); simpl; [reflexivity|].
  unfold keys in *. rewrite IH. fold (mem k (map fst out)).
  destruct (mem k (map fst out)); reflexivity.
Qed.

Lemma lookup_None (V : Type) (k : string) (items : list (string * V)) :
  lookup k items = None <-> ~ In k (keys items).
Proof.
  induction items as [|[a va] items IH]; simpl.
  - tauto.
  - destruct (String.eqb_spec a k) as [->|Hak].
    + split; [discriminate | tauto].
    + rewrite IH. tauto.
Qed.

Lemma assign_all_lookup (l m : odict) (k : string) :
  NoDup (keys l) ->
  lookup k (assign_all l m) =
  match lookup k l with Some v => Some v | None => lookup k m end.
Proof.
  revert m. induction l as [|[a va] l IH]; intros m Hnd; [reflexivity|].
  inversion Hnd as [|? ? Ha Hl]; subst.
  unfold assign_all in *. simpl. rewrite (IH _ Hl), lookup_od_set.
  destruct (String.eqb_spec a k) as [->|Hak]; [|reflexivity].
  apply lookup_None in Ha. now rewrite Ha.
Qed.

Lemma assign_all_keys (l m : odict) :
  NoDup (keys l) ->
  keys (assign_all l m) =
  (keys m ++ filter (fun k => negb (mem k (keys m))) (keys l))%list.
Proof.
  revert m. induction l as [|[a va] l IH]; intros m Hnd.
  - simpl. now rewrite app_nil_r.
  - inversion Hnd as [|? ? Ha Hl]; subst.
    unfold assign_all in *. simpl fold_left. rewrite (IH _ Hl), keys_od_set.
    simpl. destruct (mem a (keys m)) eqn:Em; simpl; [reflexivity|].
    rewrite <- app_assoc. simpl. do 2 f_equal.
    apply filter_ext_in. intros k Hk. f_equal.
    unfold mem. rewrite existsb_app. simpl. rewrite orb_false_r.
    destruct (String.eqb_spec k a) as [->|]; [contradiction|].
    apply orb_false_r.
Qed.

End OrderedDict.

(** ** [collect_dict_flags] *)

Section Collect.

Variable items : list (string * pyval).

(** The loop of [collect_dict_flags] over sorted keys [todo], from an [out]
    that is strictly sorted, below [todo], and right so far. *)
Lemma collect_loop (todo : list string) (out : odict) :
  StronglySorted str_le todo ->
  StronglySorted str_lt (keys out) ->
  (forall a b, In a (keys out) -> In b todo -> str_le a b) ->
  (forall k v, lookup k out = Some v -> flag_of items k = Some v) ->
  let res := fold_left (collect_step items) todo out in
  StronglySorted str_lt (keys res) /\
  forall k, lookup k res =
            match lookup k out with
            | Some v => Some v
            | None => if mem k todo then flag_of items k else None
            end.
Proof.
  revert out. induction todo as [|k todo IH]; intros out Htodo Hout Hbelow Hright; simpl.
  - split; [assumption|]. intros k. destruct (lookup k out); reflexivity.
  - inversion Htodo as [|? ? Htodo' Hk]; subst.
    rewrite Forall_forall in Hk.
    assert (Hstep : collect_step items out k =
              match flag_of items k with Some v => od_set k v out | None => out end).
    { unfold collect_step, flag_of. destruct (lookup k items) as [v|]; [|reflexivity].
      destruct (is_primitive v); reflexivity. }
    rewrite Hstep. clear Hstep.
    destruct (flag_of items k) as [v|] eqn:Ek.
    + destruct (IH (od_set k v out)) as [Hs Hl]; try assumption.
      * rewrite keys_od_set. destruct (mem k (keys out)) eqn:Em; [assumption|].
        apply strictly_sorted_snoc; [assumption|].
        apply Forall_forall. intros a Ha. apply str_le_lt.
        -- apply Hbelow; [assumption | now left].
        -- intros ->. apply mem_false in Em. contradiction.
      * intros a b Ha Hb. rewrite keys_od_set in Ha.
        assert (In a (keys out) \/ a = k) as [Ha' | ->].
        { destruct (mem k (keys out)); [now left|].
          apply in_app_or in Ha. destruct Ha as [Ha | [Ha | Ha]]; [auto | auto | destruct Ha]. }
        -- apply Hbelow; [assumption | now right].
        -- now apply Hk.
      * intros k' v'. rewrite lookup_od_set.
        destruct (String.eqb_spec k k') as [->|]; [congruence | apply Hright].
      * split; [assumption|]. intros k'. rewrite Hl, lookup_od_set.
        unfold mem. simpl. rewrite (String.eqb_sym k' k).
        destruct (String.eqb_spec k k') as [->|]; simpl; [|reflexivity].
        destruct (lookup k' out) as [w|] eqn:Ew; [|now rewrite Ek].
        apply Hright in Ew. congruence.
    + destruct (IH out) as [Hs Hl]; try assumption.
      * intros a b Ha Hb. apply Hbelow; [assumption | now right].
      * split; [assumption|]. intros k'. rewrite Hl.
        unfold mem. simpl. rewrite (String.eqb_sym k' k).
        destruct (lookup k' out) as [w|] eqn:Ew; [reflexivity|].
        destruct (String.eqb_spec k k') as [->|]; simpl; [|reflexivity].
        rewrite Ek. destruct (existsb _ todo); reflexivity.
Qed.

Lemma collect_dict_flags_items :
  is_flag_map (collect_dict_flags (VDict items)) /\
  forall k, lookup k (collect_dict_flags (VDict items)) = flag_of items k.
Proof.
  destruct (collect_loop (Py.sorted (keys items)) []) as [Hs Hl].
  - apply sorted_sorted.
  - constructor.
  - intros a b [].
  - discriminate.
  - split; [exact Hs|]. intros k. simpl. rewrite Hl. simpl.
    destruct (mem k (Py.sorted (keys items))) eqn:Em; [reflexivity|].
    apply mem_false in Em. unfold flag_of.
    assert (Hk : lookup k items = None).
    { apply lookup_None. intros Hin. apply Em.
      eapply Permutation_in; [symmetry; apply sorted_perm | exact Hin]. }
    now rewrite Hk.
Qed.

End Collect.

Lemma collect_dict_flags_is_flag_map (d : pyval) : is_flag_map (collect_dict_flags d).
Proof.
  destruct d; try constructor. apply collect_dict_flags_items.
Qed.

(** C7: the flag map built from a JSON object has its keys in strictly
    increasing lexical order and holds exactly the primitive-valued entries:
    a boolean as ON or OFF, null as the empty string, a string as itself, a
    number by [str]; an entry whose value is an object or an array is dropped.
    An input that is no object gives the empty flag map. *)
Theorem collect_dict_flags_spec (d : pyval) :
  match d with
  | VDict items =>
      StronglySorted str_lt (keys (collect_dict_flags d)) /\
      forall k,
        lookup k (collect_dict_flags d) =
        match lookup k items with
        | Some (VBool b) => Some (if b then "ON" else "OFF")
        | Some VNone => Some EmptyString
        | Some (VStr s) => Some s
        | Some (VInt z) => Some (Py.str_of_int z)
        | Some (VFloat text) => Some text
        | Some (VList _) | Some (VDict _) | None => None
        end
  | _ => collect_dict_flags d = []
  end.
Proof.
  destruct d as [| | | | |l|items]; try reflexivity.
  destruct (collect_dict_flags_items items) as [Hs Hl].
  split; [exact Hs|].
  intros k. rewrite Hl. unfold flag_of.
  destruct (lookup k items) as [[| | | | | |]|]; reflexivity.
Qed.

(** ** [merge_flags] *)

Lemma filter_all (A : Type) (l : list A) : filter (fun _ => true) l = l.
Proof. induction l as [|a l IH]; simpl; [reflexivity | now rewrite IH]. Qed.

(** C6: in the merge of a hardware and a software flag map, a key of the
    software map has the software value (also when the hardware map has it
    too), any other key has its hardware value, and the keys come as the
    hardware keys followed by the software-only keys, each group in
    increasing order. *)
Theorem merge_flags_spec (hw_flags sw_flags : odict) :
  is_flag_map hw_flags ->
  is_flag_map sw_flags ->
  let merged := merge_flags hw_flags sw_flags in
  let sw_only := filter (fun k => negb (mem k (keys hw_flags))) (keys sw_flags) in
  (forall k v, lookup k sw_flags = Some v -> lookup k merged = Some v) /\
  (forall k, lookup k sw_flags = None -> lookup k merged = lookup k hw_flags) /\
  keys merged = (keys hw_flags ++ sw_only)%list /\
  StronglySorted str_lt (keys hw_flags) /\
  StronglySorted str_lt sw_only.
Proof.
  intros Hhw Hsw merged sw_only.
  pose proof (strictly_sorted_NoDup _ Hhw) as Nhw.
  pose proof (strictly_sorted_NoDup _ Hsw) as Nsw.
  assert (Hl : forall k, lookup k merged =
                         match lookup k sw_flags with
                         | Some v => Some v
                         | None => lookup k hw_flags
                         end).
  { intros k. subst merged. unfold merge_flags.
    rewrite (assign_all_lookup _ _ _ Nsw), (assign_all_lookup _ _ _ Nhw).
    destruct (lookup k sw_flags); [reflexivity|].
    destruct (lookup k hw_flags); reflexivity. }
  repeat split.
  - intros k v E. now rewrite Hl, E.
  - intros k E. now rewrite Hl, E.
  - subst merged sw_only. unfold merge_flags.
    rewrite (assign_all_keys _ _ Nsw), (assign_all_keys _ _ Nhw). simpl.
    now rewrite filter_all.
  - exact Hhw.
  - apply strictly_sorted_filter. exact Hsw.
Qed.

Lemma merge_flags_spec_witness :
  let hw_flags := collect_dict_flags (VDict [("OPT", VBool true); ("BOARD", VStr "nucleo")]) in
  let sw_flags := collect_dict_flags (VDict [("OPT", VBool false); ("APP", VInt 2)]) in
  let merged := merge_flags hw_flags sw_flags in
  (forall k v, lookup k sw_flags = Some v -> lookup k merged = Some v) /\
  (forall k, lookup k sw_flags = None -> lookup k merged = lookup k hw_flags) /\
  keys merged = ["BOARD"; "OPT"; "APP"] /\
  StronglySorted str_lt (keys hw_flags) /\
  StronglySorted str_lt (filter (fun k => negb (mem k (keys hw_flags))) (keys sw_flags)).
Proof.
  exact (merge_flags_spec
           (collect_dict_flags (VDict [("OPT", VBool true); ("BOARD", VStr "nucleo")]))
           (collect_dict_flags (VDict [("OPT", VBool false); ("APP", VInt 2)]))
           (collect_dict_flags_is_flag_map _) (collect_dict_flags_is_flag_map _)).
Defined.

(** ** [flags_to_lines] *)

Lemma flag_line_rendered (kv : string * string) : flag_line kv = rendered kv.
Proof.
  destruct kv as [k v]. unfold flag_line, rendered. simpl.
  destruct v as [|c v]; [reflexivity|]. simpl.
  destruct (_ || _); reflexivity.
Qed.

Lemma flags_to_lines_map (flags : odict) : flags_to_lines flags = map rendered flags.
Proof.
  unfold flags_to_lines.
  assert (H : forall acc, fold_left (fun parts kv => parts ++ [flag_line kv])%list flags acc
                          = (acc ++ map rendered flags)%list).
  { induction flags as [|kv flags IH]; intros acc; simpl.
    - now rewrite app_nil_r.
    - rewrite IH, <- app_assoc, flag_line_rendered. reflexivity. }
  apply (H []).
Qed.

(** ** Reading a line back *)

Lemma cut_at_absent (c : ascii) (s : string) :
  Py.contains c s = false -> cut_at c s = None.
Proof.
  induction s as [|a s IH]; simpl; [reflexivity|].
  destruct (Ascii.eqb a c); simpl; [discriminate|].
  intros H. now rewrite IH.
Qed.

Lemma cut_at_first (c : ascii) (k v : string) :
  Py.contains c k = false -> cut_at c (k ++ String c v) = Some (k, v).
Proof.
  induction k as [|a k IH]; simpl.
  - now rewrite Ascii.eqb_refl.
  - destruct (Ascii.eqb a c); simpl; [discriminate|].
    intros H. now rewrite IH.
Qed.

Lemma parse_rendered (kv : string * string) :
  Py.contains "=" (fst kv) = false -> parse_flag_line (rendered kv) = Some (flag_pair kv).
Proof.
  destruct kv as [k v]. unfold rendered, flag_pair. simpl. intros Hk.
  destruct v as [|c v]; simpl.
  - now rewrite cut_at_absent.
  - now rewrite (cut_at_first "=" k (String c v) Hk).
Qed.

(** C4, as amended: every line rendered from a flag map none of whose keys
    holds an equals sign reads back, by cutting after the [-D] prefix at the
    first equals sign, as its key and its value, the empty value as absent. *)
Theorem flag_lines_round_trip (flags : odict) :
  (forall k, In k (keys flags) -> Py.contains "=" k = false) ->
  map parse_flag_line (flags_to_lines flags) = map (fun kv => Some (flag_pair kv)) flags.
Proof.
  intros Hkeys. rewrite flags_to_lines_map, map_map.
  apply map_ext_in. intros kv Hin. apply parse_rendered.
  apply Hkeys. unfold keys. now apply in_map.
Qed.

Lemma flag_lines_round_trip_witness :
  map parse_flag_line
      (flags_to_lines [("BOARD", "nucleo"); ("DEBUG", EmptyString); ("OPT", "a=b")])
  = [Some ("BOARD", Some "nucleo"); Some ("DEBUG", None); Some ("OPT", Some "a=b")].
Proof.
  apply (flag_lines_round_trip [("BOARD", "nucleo"); ("DEBUG", EmptyString); ("OPT", "a=b")]).
  simpl. intros k [<-|[<-|[<-|[]]]]; reflexivity.
Defined.

(** C4 as stated fails on a key that holds an equals sign: the flag map built
    from the JSON object with the one member [A=B] of value [c] renders the
    line [-DA=B=c], which reads back as the key [A] with the value [B=c]. *)
Lemma flag_lines_round_trip_counterexample :
  let flags := collect_dict_flags (VDict [("A=B", VStr "c")]) in
  flags = [("A=B", "c")] /\
  flags_to_lines flags = ["-DA=B=c"] /\
  map parse_flag_line (flags_to_lines flags) = [Some ("A", Some "B=c")] /\
  map parse_flag_line (flags_to_lines flags) <> map (fun kv => Some (flag_pair kv)) flags.
Proof.
  repeat split; try reflexivity. vm_compute. discriminate.
Qed.

(** With no newline in a key or a value of a flag map that is not empty, the
    lines of the written content are the rendered lines. *)
Lemma written_lines_are_rendered_lines (flags : odict) :
  flags <> [] ->
  (forall k v, In (k, v) flags ->
               Py.contains "010" k = false /\ Py.contains "010" v = false) ->
  Py.split "010" (Py.join Py.nl (flags_to_lines flags) ++ Py.nl)
  = (flags_to_lines flags ++ [EmptyString])%list.
Proof.
  intros Hne Hnl. apply split_join_lines.
  - rewrite flags_to_lines_map. destruct flags; [congruence | discriminate].
  - rewrite flags_to_lines_map. apply Forall_forall. intros line Hline.
    apply in_map_iff in Hline. destruct Hline as ([k v] & <- & Hin).
    destruct (Hnl k v Hin) as [Hk Hv]. unfold rendered. simpl fst. simpl snd.
    assert (Happ : forall x y, Py.contains "010" x = false -> Py.contains "010" y = false ->
                               Py.contains "010" (x ++ y) = false).
    { intros x y Hx Hy. induction x as [|a x IH]; [exact Hy|].
      simpl in *. apply orb_false_iff in Hx. destruct Hx as [-> Hx]. now apply IH. }
    destruct v; repeat apply Happ; auto.
Qed.

(** ** The loops of [main] and the artifacts they plan *)

Section Replay.

Context {S X : Type} (emit : string -> list string -> S -> S).
Variable body_emit : S -> X -> S.
Variable body_record : list (string * list string) -> X -> list (string * list string).

Hypothesis body_replay : forall st x, body_emit st x = replay emit (body_record [] x) st.
Hypothesis body_append : forall acc x, body_record acc x = (acc ++ body_record [] x)%list.

Lemma replay_app (l1 l2 : list (string * list string)) (st : S) :
  replay emit (l1 ++ l2) st = replay emit l2 (replay emit l1 st).
Proof. apply fold_left_app. Qed.

Lemma fold_record (l : list X) (acc : list (string * list string)) :
  fold_left body_record l acc = (acc ++ flat_map (body_record []) l)%list.
Proof.
  revert acc. induction l as [|x l IH]; intros acc; simpl.
  - now rewrite app_nil_r.
  - rewrite IH, body_append, <- app_assoc. reflexivity.
Qed.

Lemma fold_replay (l : list X) (st : S) :
  fold_left body_emit l st = replay emit (flat_map (body_record []) l) st.
Proof.
  revert st. induction l as [|x l IH]; intros st; simpl; [reflexivity|].
  rewrite IH, replay_app, body_replay. reflexivity.
Qed.

End Replay.

Section LoopReplay.

Context {S : Type} (emit : string -> list string -> S -> S).

Lemma sw_body_replay (hw_flags : odict) (hw_base : string) (st : S) (ix : nat * pyval) :
  sw_body emit hw_flags hw_base st ix
  = replay emit (sw_body record hw_flags hw_base [] ix) st.
Proof. destruct ix as [i [| | | | | |sw]]; reflexivity. Qed.

Lemma sw_body_append (hw_flags : odict) (hw_base : string)
    (acc : list (string * list string)) (ix : nat * pyval) :
  sw_body record hw_flags hw_base acc ix
  = (acc ++ sw_body record hw_flags hw_base [] ix)%list.
Proof.
  destruct ix as [i [| | | | | |sw]]; simpl; try (now rewrite app_nil_r). reflexivity.
Qed.

(** The artifacts of one hardware entry that is an object. *)
Lemma hw_artifacts_dict (hw_index : nat) (items : list (string * pyval)) :
  let hw_flags := collect_dict_flags (flags_raw items "hw_flags") in
  let hw_base := hw_filename_base_from_hw_flags hw_flags hw_index in
  hw_artifacts hw_index (VDict items) =
  match get items "sw_configuration_list" with
  | VList (sw0 :: sws) =>
      flat_map (sw_body record hw_flags hw_base []) (Py.enumerate (sw0 :: sws))
  | _ => [(hw_base ++ fixed_ext, flags_to_lines hw_flags)]
  end.
Proof.
  intros hw_flags hw_base. unfold hw_artifacts, hw_body. fold hw_flags. fold hw_base.
  destruct (get items "sw_configuration_list") as [| | | | |[|sw0 sws]|]; try reflexivity.
  now rewrite (fold_record (sw_body record hw_flags hw_base)
                 (sw_body_append hw_flags hw_base)).
Qed.

Lemma hw_body_append (acc : list (string * list string)) (ix : nat * pyval) :
  hw_body record acc ix = (acc ++ hw_body record [] ix)%list.
Proof.
  destruct ix as [i [| | | | | |items]]; unfold hw_body; try (now rewrite app_nil_r).
  destruct (get items "sw_configuration_list") as [| | | | |[|sw0 sws]|]; try reflexivity.
  rewrite !(fold_record (sw_body record _ _) (sw_body_append _ _)). reflexivity.
Qed.

Lemma hw_body_replay (st : S) (ix : nat * pyval) :
  hw_body emit st ix = replay emit (hw_body record [] ix) st.
Proof.
  destruct ix as [i [| | | | | |items]]; try reflexivity. unfold hw_body.
  destruct (get items "sw_configuration_list") as [| | | | |[|sw0 sws]|]; try reflexivity.
  rewrite (fold_replay emit (sw_body emit _ _) (sw_body record _ _)
             (sw_body_replay _ _)).
  now rewrite (fold_record (sw_body record _ _) (sw_body_append _ _)).
Qed.

Lemma artifacts_flat_map (hw_list : list pyval) :
  artifacts hw_list
  = flat_map (fun ix => hw_artifacts (fst ix) (snd ix)) (Py.enumerate hw_list).
Proof.
  unfold artifacts, hw_loop. rewrite (fold_record (hw_body record) hw_body_append).
  simpl. apply flat_map_ext. now intros [i hw].
Qed.

Lemma hw_loop_replay (hw_list : list pyval) (st : S) :
  hw_loop emit hw_list st = replay emit (artifacts hw_list) st.
Proof.
  unfold hw_loop.
  rewrite (fold_replay emit (hw_body emit) (hw_body record) hw_body_replay).
  unfold artifacts, hw_loop.
  now rewrite (fold_record (hw_body record) hw_body_append).
Qed.

End LoopReplay.

(** [enumerate] pairs each element with its position in the list. *)
Lemma In_enumerate_from (A : Type) (l : list A) (start i : nat) (x : A) :
  In (i, x) (Py.enumerate_from start l) <-> start <= i /\ nth_error l (i - start) = Some x.
Proof.
  revert start. induction l as [|y l IH]; intros start; simpl.
  - split; [tauto|]. intros [_ H]. destruct (i - start); discriminate.
  - rewrite IH. split.
    + intros [[= <- <-]|[Hle H]].
      * rewrite Nat.sub_diag. auto.
      * split; [lia|]. replace (i - start) with (S (i - S start)) by lia. exact H.
    + intros [Hle H]. destruct (i - start) as [|n] eqn:E.
      * left. simpl in H. injection H as <-. f_equal. lia.
      * right. split; [lia|]. simpl in H. replace (i - S start) with n by lia. exact H.
Qed.

Lemma In_enumerate (A : Type) (l : list A) (i : nat) (x : A) :
  In (i, x) (Py.enumerate l) <-> nth_error l i = Some x.
Proof.
  unfold Py.enumerate. rewrite In_enumerate_from, Nat.sub_0_r.
  split; [tauto | intros H; split; [lia | exact H]].
Qed.

(** ** Blank texts and [strip] *)

Lemma lstrip_by_cases (f : ascii -> bool) (s : string) :
  (Py.lstrip_by f s = EmptyString /\ all_chars f s = true) \/
  (exists c r, Py.lstrip_by f s = String c r /\ f c = false /\ all_chars f s = false).
Proof.
  induction s as [|c s IH]; simpl; [now left|].
  destruct (f c) eqn:E; simpl; [exact IH|].
  right. exists c, s. auto.
Qed.

Lemma rstrip_by_keeps (f : ascii -> bool) (c : ascii) (r : string) :
  f c = false -> Py.rstrip_by f (String c r) <> EmptyString.
Proof.
  intros E. simpl. destruct (Py.rstrip_by f r); [rewrite E|]; discriminate.
Qed.

Lemma strip_by_empty (f : ascii -> bool) (s : string) :
  String.eqb (Py.strip_by f s) EmptyString = all_chars f s.
Proof.
  unfold Py.strip_by.
  destruct (lstrip_by_cases f s) as [[-> ->] | (c & r & -> & Hc & ->)]; [reflexivity|].
  apply String.eqb_neq. now apply rstrip_by_keeps.
Qed.

Lemma strip_blank (s : string) : String.eqb (Py.strip s) EmptyString = blank s.
Proof. apply strip_by_empty. Qed.

(** ** File names of the software entries *)

Lemma sw_filename_cases (hw_base : string) (sw_index : nat) (sw : list (string * pyval)) :
  sw_filename hw_base sw_index sw =
  if named sw then hw_base ++ "_" ++ sanitize_value_for_filename (get sw "name") ++ ".txt"
  else match sw_index with
       | 0 => hw_base ++ ".txt"
       | _ => hw_base ++ "_sw-conf" ++ Py.str_of_nat sw_index ++ ".txt"
       end.
Proof.
  unfold sw_filename, named, fixed_ext.
  destruct (get sw "name"); rewrite ?strip_blank; cbn [andb];
    try (destruct (blank _); cbn [negb]); destruct sw_index; reflexivity.
Qed.

Lemma append_inj_l (a b c : string) : a ++ b = a ++ c -> b = c.
Proof. induction a as [|x a IH]; simpl; [auto | intros [= H]; auto]. Qed.

(** Only an unnamed entry at index 0 is given the bare name of the base. *)
Lemma sw_filename_bare (hw_base : string) (sw_index : nat) (sw : list (string * pyval)) :
  sw_filename hw_base sw_index sw = hw_base ++ ".txt" -> sw_index = 0 /\ named sw = false.
Proof.
  rewrite sw_filename_cases.
  destruct (named sw); [intros H; apply append_inj_l in H; discriminate|].
  destruct sw_index; [auto|]. intros H. apply append_inj_l in H. discriminate.
Qed.

(** The artifacts of a hardware entry with a non-empty software list: one per
    software entry that is an object, named from its position in the list. *)
Lemma In_hw_artifacts_sw (hw_index : nat) (items : list (string * pyval))
    (sw0 : pyval) (sws : list pyval) (art : string * list string) :
  get items "sw_configuration_list" = VList (sw0 :: sws) ->
  let hw_flags := collect_dict_flags (flags_raw items "hw_flags") in
  let hw_base := hw_filename_base_from_hw_flags hw_flags hw_index in
  In art (hw_artifacts hw_index (VDict items)) <->
  exists M sw,
    nth_error (sw0 :: sws) M = Some (VDict sw) /\
    art = (sw_filename hw_base M sw,
           flags_to_lines (merge_flags hw_flags (collect_dict_flags (flags_raw sw "sw_flags")))).
Proof.
  intros Hsw hw_flags hw_base.
  rewrite hw_artifacts_dict, Hsw. fold hw_flags. fold hw_base.
  rewrite in_flat_map. split.
  - intros ([M x] & Hin & Hart). apply In_enumerate in Hin.
    destruct x as [| | | | | |sw]; try contradiction.
    destruct Hart as [<-|[]]. exists M, sw. split; [assumption | reflexivity].
  - intros (M & sw & Hnth & ->). exists (M, VDict sw).
    split; [now apply In_enumerate | now left].
Qed.

(** C3, as amended: under a hardware entry, the software entry that is an
    object and stands at index [M] of the software list produces the file
    [{hw_base}_{sanitized name}.txt] when it is named, whatever [M];
    [{hw_base}.txt] when it is unnamed and [M] is 0; and
    [{hw_base}_sw-conf{M}.txt] when it is unnamed and [M] is not 0, also when
    no unnamed entry comes before it. *)
Theorem sw_entry_filename (hw_index : nat) (items : list (string * pyval))
    (sw_list : list pyval) (M : nat) (sw : list (string * pyval)) :
  get items "sw_configuration_list" = VList sw_list ->
  nth_error sw_list M = Some (VDict sw) ->
  let hw_flags := collect_dict_flags (flags_raw items "hw_flags") in
  let hw_base := hw_filename_base_from_hw_flags hw_flags hw_index in
  let lines := flags_to_lines
                 (merge_flags hw_flags (collect_dict_flags (flags_raw sw "sw_flags"))) in
  let produced filename := In (filename, lines) (hw_artifacts hw_index (VDict items)) in
  (named sw = true ->
   produced (hw_base ++ "_" ++ sanitize_value_for_filename (get sw "name") ++ ".txt")) /\
  (named sw = false -> M = 0 -> produced (hw_base ++ ".txt")) /\
  (named sw = false -> 0 < M ->
   produced (hw_base ++ "_sw-conf" ++ Py.str_of_nat M ++ ".txt")).
Proof.
  intros Hsw Hnth hw_flags hw_base lines produced.
  destruct sw_list as [|sw0 sws]; [destruct M; discriminate|].
  assert (H : produced (sw_filename hw_base M sw)).
  { apply (In_hw_artifacts_sw hw_index items sw0 sws _ Hsw). now exists M, sw. }
  rewrite sw_filename_cases in H.
  repeat split.
  - intros E. now rewrite E in H.
  - intros E ->. now rewrite E in H.
  - intros E HM. rewrite E in H. destruct M; [lia | exact H].
Qed.

Lemma sw_entry_filename_witness :
  let hw := [("hw_flags", VDict [("BOARD", VStr "Nucleo_L4")]);
             ("sw_configuration_list",
              VList [VDict []; VInt 0; VDict [("name", VStr "Release")]; VDict [("name", VStr " ")]])] in
  In ("nucleo-l4.txt", ["-DBOARD=Nucleo_L4"]) (hw_artifacts 0 (VDict hw)) /\
  In ("nucleo-l4_release.txt", ["-DBOARD=Nucleo_L4"]) (hw_artifacts 0 (VDict hw)) /\
  In ("nucleo-l4_sw-conf3.txt", ["-DBOARD=Nucleo_L4"]) (hw_artifacts 0 (VDict hw)).
Proof.
  intros hw.
  pose (sw_list := [VDict []; VInt 0; VDict [("name", VStr "Release")];
                    VDict [("name", VStr " ")]]).
  split; [|split].
  - apply (sw_entry_filename 0 hw sw_list 0 [] eq_refl eq_refl); reflexivity.
  - apply (sw_entry_filename 0 hw sw_list 2 [("name", VStr "Release")] eq_refl eq_refl).
    reflexivity.
  - apply (sw_entry_filename 0 hw sw_list 3 [("name", VStr " ")] eq_refl eq_refl).
    + reflexivity.
    + lia.
Defined.

(** C3 as stated fails when a named entry comes first: the first unnamed
    entry then stands at index 1 and is written to [hw0_sw-conf1.txt]; no
    [hw0.txt] is produced. *)
Lemma sw_entry_filename_counterexample :
  let sw_list := [VDict [("name", VStr "a")]; VDict []] in
  let hw := VDict [("sw_configuration_list", VList sw_list)] in
  hw_filename_base_from_hw_flags (collect_dict_flags (VDict [])) 0 = "hw0" /\
  named [("name", VStr "a")] = true /\
  named [] = false /\
  map fst (hw_artifacts 0 hw) = ["hw0_a.txt"; "hw0_sw-conf1.txt"] /\
  ~ In "hw0.txt" (map fst (hw_artifacts 0 hw)).
Proof.
  repeat split; try reflexivity.
  vm_compute. intros [H|[H|[]]]; discriminate.
Qed.

(** C10: the index in [hw{N}] and in [sw-conf{M}] is the position in the raw
    list, entries that are no objects counted.  For the hardware entry at
    position [N] of the list: its artifacts are artifacts of the run (and
    every artifact of the run is one of some entry at its position), and its
    base is [hw{N}] when no value of its flag map is usable.  Whatever the
    software list, its unnamed object entry at position [M], [0 < M], of the
    list is written to [{hw_base}_sw-conf{M}.txt], and the file names of the
    hardware entry are exactly those the object entries get from their
    positions.  When the software entry at index 0 is no object, the hardware
    entry produces no [{hw_base}.txt], and every unnamed object entry, at its
    position [M] of the software list, has [0 < M] and is written to
    [{hw_base}_sw-conf{M}.txt]. *)
Theorem indices_are_raw_positions (hw_list : list pyval) (N : nat)
    (items : list (string * pyval)) :
  nth_error hw_list N = Some (VDict items) ->
  let hw_flags := collect_dict_flags (flags_raw items "hw_flags") in
  let hw_base := hw_filename_base_from_hw_flags hw_flags N in
  (forall art, In art (hw_artifacts N (VDict items)) -> In art (artifacts hw_list)) /\
  (forall art, In art (artifacts hw_list) ->
               exists N' hw, nth_error hw_list N' = Some hw /\ In art (hw_artifacts N' hw)) /\
  ((forall v, In v (values hw_flags) -> blank v = true) ->
   hw_base = "hw" ++ Py.str_of_nat N) /\
  (forall sw_list M sw,
      get items "sw_configuration_list" = VList sw_list ->
      nth_error sw_list M = Some (VDict sw) ->
      named sw = false ->
      0 < M ->
      In (hw_base ++ "_sw-conf" ++ Py.str_of_nat M ++ ".txt")
         (map fst (hw_artifacts N (VDict items)))) /\
  (forall sw0 sws filename,
      get items "sw_configuration_list" = VList (sw0 :: sws) ->
      (In filename (map fst (hw_artifacts N (VDict items))) <->
       exists M sw,
         nth_error (sw0 :: sws) M = Some (VDict sw) /\
         filename = if named sw
                    then hw_base ++ "_" ++ sanitize_value_for_filename (get sw "name")
                         ++ ".txt"
                    else match M with
                         | 0 => hw_base ++ ".txt"
                         | _ => hw_base ++ "_sw-conf" ++ Py.str_of_nat M ++ ".txt"
                         end)) /\
  (forall sw0 sws,
      get items "sw_configuration_list" = VList (sw0 :: sws) ->
      is_dict sw0 = false ->
      ~ In (hw_base ++ ".txt") (map fst (hw_artifacts N (VDict items))) /\
      forall M sw,
        nth_error (sw0 :: sws) M = Some (VDict sw) ->
        named sw = false ->
        0 < M /\
        In (hw_base ++ "_sw-conf" ++ Py.str_of_nat M ++ ".txt")
           (map fst (hw_artifacts N (VDict items)))).
Proof.
  intros Hnth hw_flags hw_base.
  assert (Hnames : forall sw0 sws filename,
             get items "sw_configuration_list" = VList (sw0 :: sws) ->
             (In filename (map fst (hw_artifacts N (VDict items))) <->
              exists M sw,
                nth_error (sw0 :: sws) M = Some (VDict sw) /\
                filename = sw_filename hw_base M sw)).
  { intros sw0 sws filename Hsw. rewrite in_map_iff. split.
    - intros ([f l] & Hf & Hin). simpl in Hf. subst f.
      apply (In_hw_artifacts_sw N items sw0 sws _ Hsw) in Hin.
      destruct Hin as (M & sw & HM & [= -> _]). now exists M, sw.
    - intros (M & sw & HM & ->).
      exists (sw_filename hw_base M sw,
              flags_to_lines (merge_flags hw_flags
                                (collect_dict_flags (flags_raw sw "sw_flags")))).
      split; [reflexivity|].
      apply (In_hw_artifacts_sw N items sw0 sws _ Hsw). now exists M, sw. }
  assert (Hconf : forall sw_list M sw,
             get items "sw_configuration_list" = VList sw_list ->
             nth_error sw_list M = Some (VDict sw) ->
             named sw = false ->
             0 < M ->
             In (hw_base ++ "_sw-conf" ++ Py.str_of_nat M ++ ".txt")
                (map fst (hw_artifacts N (VDict items)))).
  { intros sw_list M sw Hsw HM Hun Hpos.
    destruct sw_list as [|sw0 sws]; [destruct M; discriminate|].
    apply (Hnames sw0 sws _ Hsw). exists M, sw. split; [exact HM|].
    rewrite sw_filename_cases, Hun. destruct M; [lia | reflexivity]. }
  split; [|split; [|split; [|split; [exact Hconf | split]]]].
  - intros art Hart. rewrite artifacts_flat_map. apply in_flat_map.
    exists (N, VDict items). split; [now apply In_enumerate | exact Hart].
  - intros art Hart. rewrite artifacts_flat_map in Hart. apply in_flat_map in Hart.
    destruct Hart as ([N' hw] & Hix & Hart). apply In_enumerate in Hix.
    now exists N', hw.
  - intros Hblank. subst hw_base. unfold hw_filename_base_from_hw_flags.
    assert (E : filter (fun v => negb (String.eqb (Py.strip (py_str (VStr v))) EmptyString))
                  (values hw_flags) = []).
    { induction (values hw_flags) as [|v l IH]; [reflexivity|]. simpl.
      rewrite strip_blank, (Hblank v) by now left. simpl.
      apply IH. intros w Hw. apply Hblank. now right. }
    now rewrite E.
  - intros sw0 sws filename Hsw. rewrite (Hnames sw0 sws filename Hsw).
    split; intros (M & sw & HM & ->); exists M, sw; (split; [exact HM|]).
    + apply sw_filename_cases.
    + symmetry. apply sw_filename_cases.
  - intros sw0 sws Hsw Hsw0.
    assert (Hzero : forall M sw, nth_error (sw0 :: sws) M = Some (VDict sw) -> 0 < M).
    { intros [|M] sw H; [|lia]. simpl in H. injection H as ->. discriminate. }
    split.
    + intros Hin. apply (Hnames sw0 sws _ Hsw) in Hin.
      destruct Hin as (M & sw & HM & Hname).
      symmetry in Hname. apply sw_filename_bare in Hname.
      destruct Hname as [-> _]. apply Hzero in HM. lia.
    + intros M sw HM Hun. split; [now apply (Hzero M sw)|].
      apply (Hconf (sw0 :: sws) M sw Hsw HM Hun). now apply (Hzero M sw).
Qed.

Lemma indices_are_raw_positions_witness :
  let hw := [("hw_flags", VDict [("X", VNone)]);
             ("sw_configuration_list", VList [VStr "skipped"; VDict []])] in
  let hw_list := [VInt 7; VDict hw] in
  let hw' := [("sw_configuration_list", VList [VDict []; VStr "skipped"; VDict []])] in
  (forall art, In art (hw_artifacts 1 (VDict hw)) -> In art (artifacts hw_list)) /\
  hw_filename_base_from_hw_flags (collect_dict_flags (flags_raw hw "hw_flags")) 1 = "hw1" /\
  ~ In "hw1.txt" (map fst (hw_artifacts 1 (VDict hw))) /\
  In "hw1_sw-conf1.txt" (map fst (hw_artifacts 1 (VDict hw))) /\
  In "hw0_sw-conf2.txt" (map fst (hw_artifacts 0 (VDict hw'))).
Proof.
  intros hw hw_list hw'.
  destruct (indices_are_raw_positions hw_list 1 hw eq_refl) as (Hin & _ & Hbase & _ & _ & Hsw).
  destruct (Hsw (VStr "skipped") [VDict []] eq_refl eq_refl) as [Hnone Hconf].
  destruct (indices_are_raw_positions [VDict hw'] 0 hw' eq_refl) as (_ & _ & _ & Hgen & _ & _).
  assert (E : hw_filename_base_from_hw_flags
                (collect_dict_flags (flags_raw hw "hw_flags")) 1 = "hw1") by reflexivity.
  rewrite E in Hnone, Hconf.
  split; [|split; [|split; [|split]]].
  - exact Hin.
  - exact E.
  - exact Hnone.
  - exact (proj2 (Hconf 1 [] eq_refl eq_refl)).
  - apply (Hgen [VDict []; VStr "skipped"; VDict []] 2 [] eq_refl eq_refl eq_refl). lia.
Defined.

(** ** What [main] does with the artifacts *)

Lemma replay_cons (S : Type) (emit : string -> list string -> S -> S)
    (fl : string * list string) (arts : list (string * list string)) (st : S) :
  replay emit (fl :: arts) st = replay emit arts (emit (fst fl) (snd fl) st).
Proof. reflexivity. Qed.

Section EmitIO.

Variables (a : args) (E : env).

Lemma replay_emit_io_dry (arts : list (string * list string)) (st : state) :
  dry_run a = true ->
  replay (emit_io a E) arts st
  = {| log := log st ++ map (dry_line a) arts; created_files := created_files st |}.
Proof.
  intros Hdry. revert st. induction arts as [|[f l] arts IH]; intros st.
  - simpl. rewrite app_nil_r. now destruct st.
  - rewrite replay_cons, IH. unfold emit_io. rewrite Hdry. simpl.
    rewrite <- app_assoc. unfold dry_line. simpl. destruct l; reflexivity.
Qed.

Lemma replay_emit_io_written (arts : list (string * list string)) (st : state) :
  dry_run a = false ->
  (forall l p, write_error E l p = None) ->
  replay (emit_io a E) arts st
  = {| log := log st ++ map (written a) arts;
       created_files := created_files st
                        ++ map (fun fl => Py.path_join (outdir a) (fst fl)) arts |}.
Proof.
  intros Hdry Hok. revert st. induction arts as [|[f l] arts IH]; intros st.
  - simpl. rewrite !app_nil_r. now destruct st.
  - rewrite replay_cons, IH. unfold emit_io. rewrite Hdry, Hok. simpl.
    rewrite <- !app_assoc. reflexivity.
Qed.


End EmitIO.





(** ** The artifacts of one hardware entry *)

Lemma length_sw_artifacts (hw_flags : odict) (hw_base : string) (l : list pyval) (start : nat) :
  List.length (flat_map (sw_body record hw_flags hw_base []) (Py.enumerate_from start l))
  = List.length (filter is_dict l).
Proof.
  revert start. induction l as [|x l IH]; intros start; [reflexivity|].
  simpl Py.enumerate_from. simpl flat_map. rewrite length_app, IH.
  destruct x; reflexivity.
Qed.

(** C1, as amended: a hardware entry that is an object yields one artifact
    per software entry that is an object, and exactly one when its software
    list is absent, no list, or empty; hence at least one unless that list is
    non-empty and holds no object.  Each artifact is one line of a dry run,
    and one file of a run whose writes the file system accepts. *)
Theorem hw_entry_artifacts (hw_index : nat) (items : list (string * pyval)) :
  let arts := hw_artifacts hw_index (VDict items) in
  List.length arts = match get items "sw_configuration_list" with
                     | VList (sw0 :: sws) => List.length (filter is_dict (sw0 :: sws))
                     | _ => 1
                     end /\
  (forall a E st,
      dry_run a = true ->
      log (hw_body (emit_io a E) st (hw_index, VDict items))
      = (log st ++ map (dry_line a) arts)%list) /\
  (forall a E st,
      dry_run a = false ->
      (forall l p, write_error E l p = None) ->
      log (hw_body (emit_io a E) st (hw_index, VDict items))
      = (log st ++ map (written a) arts)%list).
Proof.
  intros arts. split; [|split].
  - subst arts. rewrite hw_artifacts_dict.
    destruct (get items "sw_configuration_list") as [| | | | |[|sw0 sws]|]; try reflexivity.
    apply length_sw_artifacts.
  - intros a E st Hdry. rewrite hw_body_replay.
    now rewrite (replay_emit_io_dry a E _ st Hdry).
  - intros a E st Hdry Hok. rewrite hw_body_replay.
    now rewrite (replay_emit_io_written a E _ st Hdry Hok).
Qed.

(** C1 as stated fails on a hardware entry whose software list is non-empty
    and holds no object: nothing is produced for it, in a run that writes and
    in a dry run. *)
Lemma hw_entry_artifacts_counterexample :
  let hw := VDict [("hw_flags", VDict [("BOARD", VStr "nucleo")]);
                   ("sw_configuration_list", VList [VStr "release"])] in
  let E := {| load := Loaded (VDict [("hw_configuration_list", VList [hw])]);
              makedirs_error := None;
              write_error := fun _ _ => None |} in
  hw_artifacts 0 hw = [] /\
  main {| input := "conf.json"; outdir := "out"; dry_run := false |} E
  = (Returned, [Makedirs "out"; Stdout "No files were created."]) /\
  main {| input := "conf.json"; outdir := "out"; dry_run := true |} E
  = (Returned, [Makedirs "out"; Stdout "Dry run completed."]).
Proof. repeat split. Qed.

(** ** The input errors of [main] *)

(** A document that is an object without a list under
    [hw_configuration_list] is rejected with exit code 2 before anything is
    created. *)
Lemma main_missing_list (a : args) (E : env) (data : list (string * pyval)) :
  load E = Loaded (VDict data) ->
  (forall hw_list, get data "hw_configuration_list" <> VList hw_list) ->
  main a E
  = (SysExit 2,
     [Stderr "Error: 'hw_configuration_list' not found or is not a list in the input JSON."]).
Proof.
  intros Hload Hlist. unfold main. rewrite Hload.
  destruct (get data "hw_configuration_list") as [| | | | |hw_list|]; try reflexivity.
  now destruct (Hlist hw_list).
Qed.

(** Entries that are no objects produce nothing, and with a list to read and
    a directory to write to [main] returns. *)
Lemma non_object_entries_skipped (hw_index : nat) (hw : pyval) :
  is_dict hw = false -> hw_artifacts hw_index hw = [].
Proof. destruct hw; try reflexivity. discriminate. Qed.

Lemma main_returns (a : args) (E : env) (data : list (string * pyval)) (hw_list : list pyval) :
  load E = Loaded (VDict data) ->
  get data "hw_configuration_list" = VList hw_list ->
  makedirs_error E = None ->
  fst (main a E) = Returned.
Proof. intros Hload Hlist Hdir. unfold main. now rewrite Hload, Hlist, Hdir. Qed.

(** C9, on the code: a document that is valid JSON but no object (here the
    empty array) has no [hw_configuration_list]; [main] does not reach its
    error message: [data.get] raises [AttributeError], nothing catches it,
    and the process ends with status 1 instead of 2. *)
Theorem main_non_object_document :
  let E := {| load := Loaded (VList []);
              makedirs_error := None;
              write_error := fun _ _ => None |} in
  let a := {| input := "conf.json"; outdir := "out"; dry_run := false |} in
  main a E = (Uncaught "AttributeError", []) /\
  exit_code (fst (main a E)) = 1 /\
  exit_code (fst (main a E)) <> 2.
Proof. repeat split. discriminate. Qed.

(** ** [sanitize_value_for_filename] and the file name base *)

Section Sanitize.

Lemma sub_outside_runs_class (in_run : bool) (s : string) :
  all_chars in_class (sub_outside_runs in_run s) = true.
Proof.
  revert in_run. induction s as [|c s IH]; intros in_run; simpl; [reflexivity|].
  destruct (outside_class c) eqn:Ec.
  - destruct in_run; simpl; auto.
  - simpl. unfold in_class at 1. rewrite Ec. simpl. auto.
Qed.

Lemma collapse_hyphens_cons (c : ascii) (r : string) :
  collapse_hyphens (String c r)
  = if Ascii.eqb c "-" then
      match r with
      | String d _ => if Ascii.eqb d "-" then collapse_hyphens r
                      else String c (collapse_hyphens r)
      | EmptyString => String c EmptyString
      end
    else String c (collapse_hyphens r).
Proof. reflexivity. Qed.

Lemma all_chars_cons (f : ascii -> bool) (c : ascii) (r : string) :
  all_chars f (String c r) = f c && all_chars f r.
Proof. reflexivity. Qed.

Lemma collapse_hyphens_class (f : ascii -> bool) (s : string) :
  all_chars f s = true -> all_chars f (collapse_hyphens s) = true.
Proof.
  induction s as [|c s IH]; [reflexivity|].
  rewrite all_chars_cons. intros H. apply andb_prop in H. destruct H as [Hc Hs].
  specialize (IH Hs). rewrite collapse_hyphens_cons.
  destruct (Ascii.eqb c "-").
  - destruct s as [|d s]; [now rewrite all_chars_cons, Hc|].
    destruct (Ascii.eqb d "-"); [exact IH|].
    now rewrite all_chars_cons, Hc, IH.
  - now rewrite all_chars_cons, Hc, IH.
Qed.

Lemma lstrip_by_class (f g : ascii -> bool) (s : string) :
  all_chars f s = true -> all_chars f (Py.lstrip_by g s) = true.
Proof.
  induction s as [|c s IH]; [reflexivity|].
  intros H. simpl. destruct (g c); [|exact H].
  simpl in H. apply andb_prop in H. now apply IH.
Qed.

Lemma rstrip_by_class (f g : ascii -> bool) (s : string) :
  all_chars f s = true -> all_chars f (Py.rstrip_by g s) = true.
Proof.
  induction s as [|c s IH]; [reflexivity|].
  rewrite all_chars_cons. intros H. apply andb_prop in H. destruct H as [Hc Hs].
  specialize (IH Hs).
  change (Py.rstrip_by g (String c s))
    with (match Py.rstrip_by g s with
          | EmptyString => if g c then EmptyString else String c EmptyString
          | String d r => String c (String d r)
          end).
  destruct (Py.rstrip_by g s) as [|d r].
  - destruct (g c); [reflexivity | now rewrite all_chars_cons, Hc].
  - rewrite all_chars_cons with (c := c). now rewrite Hc, IH.
Qed.

Lemma class_no_underscore (s : string) :
  all_chars in_class s = true -> Py.contains "_" s = false.
Proof.
  induction s as [|c s IH]; [reflexivity|].
  intros H. simpl in H. apply andb_prop in H. destruct H as [Hc Hs].
  simpl. rewrite (IH Hs), orb_false_r.
  destruct (Ascii.eqb_spec c "_") as [->|]; [discriminate | reflexivity].
Qed.


End Sanitize.



(** * Further properties of the scripts *)

(** ** [sanitize] of [build_artifact_name.py] *)

Lemma sanitize_char_idempotent (c : ascii) :
  let f := fun c => Py.lower_char (if Ascii.eqb c "." then "-"%char else c) in
  f (f c) = f c.
Proof. destruct c as [[] [] [] [] [] [] [] []]; reflexivity. Qed.

Lemma sanitize_char_name_char (c : ascii) :
  name_char (Py.lower_char (if Ascii.eqb c "." then "-"%char else c)) = true.
Proof. destruct c as [[] [] [] [] [] [] [] []]; reflexivity. Qed.

Lemma sanitize_char_underscore (c : ascii) :
  Ascii.eqb (Py.lower_char (if Ascii.eqb c "." then "-"%char else c)) "_" = Ascii.eqb c "_".
Proof. destruct c as [[] [] [] [] [] [] [] []]; reflexivity. Qed.

Lemma sanitize_twice (s : string) :
  BuildArtifactName.sanitize (BuildArtifactName.sanitize s) = BuildArtifactName.sanitize s.
Proof.
  rewrite !sanitize_eq. induction s as [|c s IH]; [reflexivity|].
  simpl. rewrite IH. f_equal. apply sanitize_char_idempotent.
Qed.

(** X1: sanitizing a project, a tag or a part of the configuration twice is
    sanitizing it once. *)
Theorem sanitize_idempotent (s : string) :
  BuildArtifactName.sanitize (BuildArtifactName.sanitize s) = BuildArtifactName.sanitize s.
Proof. exact (sanitize_twice s). Qed.

Lemma all_chars_app (f : ascii -> bool) (a b : string) :
  all_chars f (a ++ b) = all_chars f a && all_chars f b.
Proof.
  induction a as [|c a IH]; simpl; [reflexivity|]. now rewrite IH, andb_assoc.
Qed.

Lemma all_chars_join (f : ascii -> bool) (sep : string) (l : list string) :
  all_chars f sep = true ->
  Forall (fun x => all_chars f x = true) l ->
  all_chars f (Py.join sep l) = true.
Proof.
  intros Hsep. induction 1 as [|x l Hx Hl IH]; [reflexivity|].
  destruct l as [|y l]; [exact Hx|].
  rewrite join_cons, !all_chars_app, Hx, Hsep, IH. reflexivity.
Qed.

Lemma sanitize_name_chars (s : string) :
  all_chars name_char (BuildArtifactName.sanitize s) = true.
Proof.
  rewrite sanitize_eq. induction s as [|c s IH]; [reflexivity|].
  simpl. now rewrite IH, sanitize_char_name_char.
Qed.

(** The name is the underscore-join of sanitized texts. *)
Lemma build_artifact_name_join (project configuration tag : string) :
  exists l,
    BuildArtifactName.build_artifact_name project configuration tag = Py.join "_" l /\
    Forall (fun x => exists s, x = BuildArtifactName.sanitize s) l.
Proof.
  unfold BuildArtifactName.build_artifact_name.
  set (parts_s := map BuildArtifactName.sanitize _).
  assert (Hparts : Forall (fun x => exists s, x = BuildArtifactName.sanitize s) parts_s).
  { apply Forall_forall. intros x Hx. apply in_map_iff in Hx.
    destruct Hx as (y & <- & _). now exists y. }
  clearbody parts_s.
  destruct (scan_parts_cases (BuildArtifactName.sanitize project)
              (BuildArtifactName.sanitize tag) parts_s [] eq_refl)
    as [(pre & q & post & E & _ & _ & Hscan) | [_ Hscan]];
    simpl in Hscan; unfold Py.enumerate; rewrite Hscan.
  - exists (BuildArtifactName.sanitize project
            :: (pre ++ q :: BuildArtifactName.sanitize tag :: post)%list).
    split; [destruct pre; reflexivity|].
    subst parts_s. apply Forall_app in Hparts. destruct Hparts as [Hpre Hpost].
    inversion Hpost; subst.
    constructor; [now exists project|].
    apply Forall_app. split; [assumption|].
    constructor; [assumption|]. constructor; [now exists tag | assumption].
  - exists (BuildArtifactName.sanitize project :: BuildArtifactName.sanitize tag :: parts_s).
    split; [destruct parts_s; reflexivity|].
    constructor; [now exists project|]. constructor; [now exists tag | assumption].
Qed.

(** X2: for a project, a configuration and a tag made of code points below
    U+0100 (the strings of this development), the artifact name holds no dot
    and no capital letter (A to Z, and U+00C0 to U+00DE but U+00D7). *)
Theorem build_artifact_name_chars (project configuration tag : string) :
  all_chars name_char (BuildArtifactName.build_artifact_name project configuration tag) = true
  /\ Py.contains "." (BuildArtifactName.build_artifact_name project configuration tag) = false.
Proof.
  destruct (build_artifact_name_join project configuration tag) as (l & -> & Hl).
  assert (H : all_chars name_char (Py.join "_" l) = true).
  { apply all_chars_join; [reflexivity|].
    eapply Forall_impl; [|exact Hl]. intros x [s ->]. apply sanitize_name_chars. }
  split; [exact H|].
  induction (Py.join "_" l) as [|c r IH]; [reflexivity|].
  simpl in H. apply andb_prop in H. destruct H as [Hc Hr].
  simpl. rewrite (IH Hr), orb_false_r.
  unfold name_char in Hc. apply andb_prop in Hc. destruct Hc as [_ Hc].
  now destruct (Ascii.eqb c ".").
Qed.

Lemma split_sanitize (s : string) :
  Py.split "_" (Py.lower (Py.replace_char "." "-" s))
  = map (fun p => Py.lower (Py.replace_char "." "-" p)) (Py.split "_" s).
Proof.
  induction s as [|c s IH]; [reflexivity|].
  simpl. rewrite sanitize_char_underscore, IH.
  destruct (Ascii.eqb c "_"); [reflexivity|].
  destruct (Py.split "_" s); reflexivity.
Qed.

(** X3: the artifact name depends on its three inputs only through their
    sanitized forms: sanitizing project, configuration and tag beforehand
    changes nothing (so the name ignores case, and takes a dot for a hyphen). *)
Theorem build_artifact_name_presanitized (project configuration tag : string) :
  BuildArtifactName.build_artifact_name
    (BuildArtifactName.sanitize project) (BuildArtifactName.sanitize configuration)
    (BuildArtifactName.sanitize tag)
  = BuildArtifactName.build_artifact_name project configuration tag.
Proof.
  unfold BuildArtifactName.build_artifact_name.
  rewrite !sanitize_twice.
  assert (E : map BuildArtifactName.sanitize
                (if Py.truthy (BuildArtifactName.sanitize configuration)
                 then Py.split "_" (BuildArtifactName.sanitize configuration) else [])
              = map BuildArtifactName.sanitize
                  (if Py.truthy configuration then Py.split "_" configuration else [])).
  { destruct configuration as [|c r]; [reflexivity|].
    rewrite sanitize_eq.
    change (Py.truthy (Py.lower (Py.replace_char "." "-" (String c r)))) with true.
    change (Py.truthy (String c r)) with true. cbv iota.
    rewrite split_sanitize, map_map. apply map_ext. intros p.
    rewrite <- sanitize_eq. apply sanitize_twice. }
  now rewrite E.
Qed.

(** ** The shape of [sanitize_value_for_filename] *)

Section TokenShape.

Lemma first_char_collapse (s : string) : first_char (collapse_hyphens s) = first_char s.
Proof.
  induction s as [|c s IH]; [reflexivity|].
  rewrite collapse_hyphens_cons.
  destruct (Ascii.eqb_spec c "-") as [->|]; [|reflexivity].
  destruct s as [|d s]; [reflexivity|].
  destruct (Ascii.eqb_spec d "-") as [->|]; [|reflexivity].
  rewrite IH. reflexivity.
Qed.

Lemma no_hyphen_pair_cons (c : ascii) (s : string) :
  no_hyphen_pair (String c s)
  = match first_char s with
    | Some d => negb (Ascii.eqb c "-" && Ascii.eqb d "-") && no_hyphen_pair s
    | None => true
    end.
Proof. destruct s; reflexivity. Qed.

Lemma collapse_hyphens_no_pair (s : string) : no_hyphen_pair (collapse_hyphens s) = true.
Proof.
  induction s as [|c s IH]; [reflexivity|].
  rewrite collapse_hyphens_cons.
  destruct (Ascii.eqb_spec c "-") as [->|Hc].
  - destruct s as [|d s]; [reflexivity|].
    destruct (Ascii.eqb_spec d "-") as [->|Hd]; [exact IH|].
    rewrite no_hyphen_pair_cons, first_char_collapse, IH. simpl.
    destruct (Ascii.eqb_spec d "-"); [contradiction | reflexivity].
  - rewrite no_hyphen_pair_cons, IH.
    destruct (first_char (collapse_hyphens s)); [|reflexivity].
    destruct (Ascii.eqb_spec c "-"); [contradiction | reflexivity].
Qed.

Lemma no_hyphen_pair_tail (c : ascii) (s : string) :
  no_hyphen_pair (String c s) = true -> no_hyphen_pair s = true.
Proof.
  rewrite no_hyphen_pair_cons. destruct (first_char s) eqn:E.
  - intros H. apply andb_prop in H. tauto.
  - destruct s; [reflexivity | discriminate].
Qed.

Lemma lstrip_by_no_pair (g : ascii -> bool) (s : string) :
  no_hyphen_pair s = true -> no_hyphen_pair (Py.lstrip_by g s) = true.
Proof.
  induction s as [|c s IH]; [reflexivity|].
  intros H. simpl Py.lstrip_by. destruct (g c); [|exact H].
  apply IH. now apply no_hyphen_pair_tail in H.
Qed.

Lemma rstrip_by_cons (g : ascii -> bool) (c : ascii) (s : string) :
  Py.rstrip_by g (String c s)
  = match Py.rstrip_by g s with
    | EmptyString => if g c then EmptyString else String c EmptyString
    | String d r => String c (String d r)
    end.
Proof. reflexivity. Qed.

Lemma first_char_rstrip (g : ascii -> bool) (s : string) :
  Py.rstrip_by g s = EmptyString \/ first_char (Py.rstrip_by g s) = first_char s.
Proof.
  destruct s as [|c s]; [now left|].
  rewrite rstrip_by_cons. destruct (Py.rstrip_by g s).
  - destruct (g c); [now left | now right].
  - now right.
Qed.

Lemma rstrip_by_no_pair (g : ascii -> bool) (s : string) :
  no_hyphen_pair s = true -> no_hyphen_pair (Py.rstrip_by g s) = true.
Proof.
  induction s as [|c s IH]; [reflexivity|].
  intros H. pose proof (no_hyphen_pair_tail _ _ H) as Hs. specialize (IH Hs).
  rewrite rstrip_by_cons.
  destruct (first_char_rstrip g s) as [E|E].
  - rewrite E. destruct (g c); reflexivity.
  - destruct (Py.rstrip_by g s) as [|d r] eqn:Er; [destruct (g c); reflexivity|].
    rewrite no_hyphen_pair_cons. rewrite no_hyphen_pair_cons in H.
    simpl first_char in *. rewrite <- E in H.
    apply andb_prop in H. destruct H as [H _]. now rewrite H, IH.
Qed.

Lemma last_char_rstrip (g : ascii -> bool) (s : string) (c : ascii) :
  last_char (Py.rstrip_by g s) = Some c -> g c = false.
Proof.
  induction s as [|a s IH]; [discriminate|].
  rewrite rstrip_by_cons. destruct (Py.rstrip_by g s) as [|d r].
  - destruct (g a) eqn:Ea; [discriminate|]. simpl. now intros [= <-].
  - exact IH.
Qed.

Lemma first_char_lstrip (g : ascii -> bool) (s : string) (c : ascii) :
  first_char (Py.lstrip_by g s) = Some c -> g c = false.
Proof.
  induction s as [|a s IH]; [discriminate|].
  simpl Py.lstrip_by. destruct (g a) eqn:Ea; [exact IH|]. simpl. now intros [= <-].
Qed.

Lemma strip_char_shape (s : string) :
  all_chars in_class s = true ->
  no_hyphen_pair s = true ->
  let t := Py.strip_char "-" s in
  all_chars in_class t = true /\
  first_char t <> Some "-"%char /\
  last_char t <> Some "-"%char /\
  no_hyphen_pair t = true.
Proof.
  intros Hclass Hpair t. subst t. unfold Py.strip_char, Py.strip_by.
  split; [now apply rstrip_by_class, lstrip_by_class|].
  split; [|split].
  - destruct (first_char_rstrip (Ascii.eqb "-") (Py.lstrip_by (Ascii.eqb "-") s)) as [E|E].
    + rewrite E. discriminate.
    + rewrite E. intros H. apply first_char_lstrip in H. discriminate.
  - intros H. apply last_char_rstrip in H. discriminate.
  - now apply rstrip_by_no_pair, lstrip_by_no_pair.
Qed.

(** What [sanitize_value_for_filename] does to the text of a value that is
    not [None]. *)
Lemma sanitize_value_for_filename_text (v : pyval) :
  v <> VNone ->
  sanitize_value_for_filename v
  = let s := Py.lower (Py.strip (py_str v)) in
    if negb (Py.truthy s) then "empty"
    else let t := Py.strip_char "-"
                    (collapse_hyphens (sub_outside_runs false (Py.replace_char "_" "-" s))) in
         if Py.truthy t then t else "empty".
Proof. destruct v; [congruence | reflexivity ..]. Qed.

Lemma sanitized_text_shape (s : string) :
  token_shape
    (if negb (Py.truthy s) then "empty"
     else let t := Py.strip_char "-"
                     (collapse_hyphens (sub_outside_runs false (Py.replace_char "_" "-" s))) in
          if Py.truthy t then t else "empty").
Proof.
  assert (Hempty : token_shape "empty").
  { repeat split; try discriminate; reflexivity. }
  destruct (negb (Py.truthy s)); [exact Hempty|]. cbv zeta.
  pose proof (strip_char_shape
                (collapse_hyphens (sub_outside_runs false (Py.replace_char "_" "-" s)))
                (collapse_hyphens_class _ _ (sub_outside_runs_class _ _))
                (collapse_hyphens_no_pair _)) as H.
  cbv zeta in H.
  destruct (Py.strip_char "-" _) as [|c t]; [exact Hempty|].
  split; [discriminate | exact H].
Qed.

Lemma sanitize_value_for_filename_has_shape (v : pyval) :
  token_shape (sanitize_value_for_filename v).
Proof.
  destruct v as [| | | | | |];
    try (rewrite sanitize_value_for_filename_text by discriminate;
         apply sanitized_text_shape).
  repeat split; try discriminate; reflexivity.
Qed.

End TokenShape.

(** ** Tokens are fixed points of [sanitize_value_for_filename] *)

Section TokenFixed.

Lemma in_class_char (c : ascii) :
  in_class c = true ->
  Py.is_space c = false /\ Py.lower_char c = c /\ Ascii.eqb c "_" = false /\
  outside_class c = false.
Proof. destruct c as [[] [] [] [] [] [] [] []]; try discriminate; repeat split. Qed.

Lemma all_chars_first (f : ascii -> bool) (s : string) (c : ascii) :
  all_chars f s = true -> first_char s = Some c -> f c = true.
Proof.
  destruct s as [|a s]; [discriminate|]. simpl.
  intros H [= <-]. apply andb_prop in H. tauto.
Qed.

Lemma all_chars_last (f : ascii -> bool) (s : string) (c : ascii) :
  all_chars f s = true -> last_char s = Some c -> f c = true.
Proof.
  induction s as [|a s IH]; [discriminate|].
  rewrite all_chars_cons. intros H. apply andb_prop in H. destruct H as [Ha Hs].
  destruct s as [|d r]; [simpl; now intros [= <-]|]. exact (IH Hs).
Qed.

Lemma lstrip_by_id (g : ascii -> bool) (s : string) :
  (forall c, first_char s = Some c -> g c = false) -> Py.lstrip_by g s = s.
Proof.
  destruct s as [|a s]; [reflexivity|]. intros H. simpl.
  now rewrite (H a eq_refl).
Qed.

Lemma rstrip_by_id (g : ascii -> bool) (s : string) :
  (forall c, last_char s = Some c -> g c = false) -> Py.rstrip_by g s = s.
Proof.
  induction s as [|a s IH]; [reflexivity|]. intros H.
  rewrite rstrip_by_cons. destruct s as [|d r].
  - simpl. now rewrite (H a eq_refl).
  - rewrite (IH H). reflexivity.
Qed.

Lemma lower_id (s : string) : all_chars in_class s = true -> Py.lower s = s.
Proof.
  induction s as [|c s IH]; [reflexivity|].
  rewrite all_chars_cons. intros H. apply andb_prop in H. destruct H as [Hc Hs].
  simpl. rewrite (IH Hs). f_equal. now apply in_class_char.
Qed.

Lemma replace_underscore_id (s : string) :
  all_chars in_class s = true -> Py.replace_char "_" "-" s = s.
Proof.
  induction s as [|c s IH]; [reflexivity|].
  rewrite all_chars_cons. intros H. apply andb_prop in H. destruct H as [Hc Hs].
  simpl. rewrite (IH Hs). apply in_class_char in Hc.
  destruct Hc as (_ & _ & -> & _). reflexivity.
Qed.

Lemma sub_outside_runs_id (in_run : bool) (s : string) :
  all_chars in_class s = true -> sub_outside_runs in_run s = s.
Proof.
  revert in_run. induction s as [|c s IH]; intros in_run; [reflexivity|].
  rewrite all_chars_cons. intros H. apply andb_prop in H. destruct H as [Hc Hs].
  simpl. apply in_class_char in Hc. destruct Hc as (_ & _ & _ & ->).
  now rewrite (IH false Hs).
Qed.

Lemma collapse_hyphens_id (s : string) :
  no_hyphen_pair s = true -> collapse_hyphens s = s.
Proof.
  induction s as [|c s IH]; [reflexivity|].
  intros H. pose proof (no_hyphen_pair_tail _ _ H) as Hs.
  rewrite collapse_hyphens_cons, (IH Hs).
  destruct (Ascii.eqb c "-") eqn:Ec; [|reflexivity].
  destruct s as [|d r]; [reflexivity|].
  rewrite no_hyphen_pair_cons in H. simpl in H. rewrite Ec in H.
  destruct (Ascii.eqb d "-"); [discriminate | reflexivity].
Qed.

Lemma token_fixed (t : string) :
  token_shape t -> sanitize_value_for_filename (VStr t) = t.
Proof.
  intros (Hne & Hclass & Hfirst & Hlast & Hpair).
  rewrite sanitize_value_for_filename_text by discriminate. simpl py_str.
  assert (Hstrip : Py.strip t = t).
  { unfold Py.strip, Py.strip_by. rewrite lstrip_by_id.
    - apply rstrip_by_id. intros c Hc.
      apply (all_chars_last _ _ _ Hclass) in Hc. now apply in_class_char.
    - intros c Hc. apply (all_chars_first _ _ _ Hclass) in Hc. now apply in_class_char. }
  rewrite Hstrip, (lower_id _ Hclass). cbv zeta.
  rewrite (replace_underscore_id _ Hclass), (sub_outside_runs_id _ _ Hclass),
    (collapse_hyphens_id _ Hpair).
  assert (Hs : Py.strip_char "-" t = t).
  { unfold Py.strip_char, Py.strip_by. rewrite lstrip_by_id.
    - apply rstrip_by_id. intros c Hc.
      destruct (Ascii.eqb_spec "-"%char c) as [<-|]; [contradiction | reflexivity].
    - intros c Hc.
      destruct (Ascii.eqb_spec "-"%char c) as [<-|]; [contradiction | reflexivity]. }
  rewrite Hs. destruct t; [contradiction | reflexivity].
Qed.

End TokenFixed.

(** X4: whatever the value, its file name token is not empty, is made of the
    characters a to z, 0 to 9 and hyphen (so it holds no underscore, no capital
    letter, no path separator), has no hyphen at either end and no two hyphens
    in a row; the token of a value that is not [None] and whose text is blank
    is [empty]. *)
Theorem sanitize_value_for_filename_shape (v : pyval) :
  let t := sanitize_value_for_filename v in
  t <> EmptyString /\
  all_chars in_class t = true /\
  Py.contains "_" t = false /\
  first_char t <> Some "-"%char /\
  last_char t <> Some "-"%char /\
  no_hyphen_pair t = true /\
  (v <> VNone -> blank (py_str v) = true -> t = "empty").
Proof.
  intros t. subst t.
  destruct (sanitize_value_for_filename_has_shape v) as (Hne & Hclass & Hfirst & Hlast & Hpair).
  repeat split; try assumption.
  - now apply class_no_underscore.
  - intros Hv Hblank. rewrite sanitize_value_for_filename_text by assumption.
    rewrite <- strip_blank in Hblank. apply String.eqb_eq in Hblank.
    now rewrite Hblank.
Qed.

(** X5: a token is left as it is when it is sanitized again. *)
Theorem sanitize_value_for_filename_idempotent (v : pyval) :
  sanitize_value_for_filename (VStr (sanitize_value_for_filename v))
  = sanitize_value_for_filename v.
Proof. apply token_fixed, sanitize_value_for_filename_has_shape. Qed.

(** ** [is_numeric_string] and its regular expression *)

Section Numeric.

Lemma lstrip_digits_app (d r : string) :
  all_chars is_digit d = true -> no_digit_first r ->
  Py.lstrip_by is_digit (d ++ r) = r.
Proof.
  intros Hd Hr. induction d as [|c d IH]; simpl.
  - apply lstrip_by_id. exact Hr.
  - simpl in Hd. apply andb_prop in Hd. destruct Hd as [-> Hd]. now apply IH.
Qed.

Lemma lstrip_digits_inv (s : string) :
  exists d, all_chars is_digit d = true /\ s = d ++ Py.lstrip_by is_digit s /\
            no_digit_first (Py.lstrip_by is_digit s).
Proof.
  induction s as [|c s (d & Hd & Hs & Hr)].
  - exists EmptyString. repeat split. intros c. discriminate.
  - simpl Py.lstrip_by. destruct (is_digit c) eqn:Ec.
    + exists (String c d). simpl. rewrite Ec, Hd. repeat split; [|exact Hr].
      now rewrite <- Hs.
    + exists EmptyString. repeat split. intros a [= <-]. exact Ec.
Qed.

Lemma digits1_app (d r : string) :
  digits d -> no_digit_first r -> digits1 (d ++ r) = Some r.
Proof.
  intros [Hne Hd] Hr. destruct d as [|c d]; [contradiction|].
  simpl in *. apply andb_prop in Hd. destruct Hd as [-> Hd].
  now rewrite lstrip_digits_app.
Qed.

Lemma digits1_inv (s r : string) :
  digits1 s = Some r -> exists d, digits d /\ s = d ++ r /\ no_digit_first r.
Proof.
  destruct s as [|c s]; [discriminate|]. simpl.
  destruct (is_digit c) eqn:Ec; [|discriminate]. intros [= <-].
  destruct (lstrip_digits_inv s) as (d & Hd & Hs & Hr).
  exists (String c d). split; [split; [discriminate | simpl; now rewrite Ec]|].
  split; [simpl; now rewrite <- Hs | exact Hr].
Qed.

Lemma opt_sign_app (sg r : string) :
  sign sg -> (exists c, first_char r = Some c /\ is_digit c = true) ->
  opt_sign (sg ++ r) = r.
Proof.
  intros [->|[->| ->]] (c & Hc & Hd); try reflexivity.
  destruct r as [|a r]; [discriminate|]. injection Hc as ->. simpl.
  destruct c as [[] [] [] [] [] [] [] []]; try discriminate; reflexivity.
Qed.

Lemma opt_sign_inv (s : string) : exists sg, sign sg /\ s = sg ++ opt_sign s.
Proof.
  destruct s as [|c s]; [exists EmptyString; split; [now left | reflexivity]|].
  simpl. destruct (Ascii.eqb_spec c "+") as [->|]; simpl.
  - exists "+". split; [right; now left | reflexivity].
  - destruct (Ascii.eqb_spec c "-") as [->|].
    + exists "-". split; [right; now right | reflexivity].
    + exists EmptyString. split; [now left | reflexivity].
Qed.

Lemma digits_first (d r : string) :
  digits d -> exists c, first_char (d ++ r) = Some c /\ is_digit c = true.
Proof.
  intros [Hne Hd]. destruct d as [|c d]; [contradiction|].
  exists c. simpl in *. apply andb_prop in Hd. tauto.
Qed.

Lemma numeric_text_accepted (s : string) : numeric_text s -> is_numeric_string s = true.
Proof.
  intros (sg & i & fr & ex & -> & Hsg & Hi & Hfr & Hex).
  assert (Hexp : forall mark sg' e,
             (mark = "e" \/ mark = "E") -> sign sg' -> digits e ->
             no_digit_first (mark ++ sg' ++ e) /\
             match mark ++ sg' ++ e with
             | EmptyString => true
             | String c r =>
                 if Ascii.eqb c "e" || Ascii.eqb c "E" then
                   match digits1 (opt_sign r) with
                   | Some EmptyString => true
                   | _ => false
                   end
                 else false
             end = true /\
             first_char (mark ++ sg' ++ e) <> Some "."%char).
  { intros mark sg' e Hm Hs He.
    assert (Hd : digits1 (opt_sign (sg' ++ e)) = Some EmptyString).
    { rewrite opt_sign_app; [|assumption|].
      - rewrite <- (append_nil_r e). apply digits1_app; [assumption|].
        intros c. discriminate.
      - rewrite <- (append_nil_r e). now apply digits_first. }
    destruct Hm as [-> | ->]; simpl; rewrite Hd;
      (split; [intros c [= <-]; reflexivity | split; [reflexivity | discriminate]]). }
  assert (Hne : String.eqb (sg ++ i ++ fr ++ ex) EmptyString = false).
  { apply String.eqb_neq. destruct Hi as [Hi _].
    destruct Hsg as [->|[->| ->]]; try discriminate.
    destruct i; [contradiction | discriminate]. }
  unfold is_numeric_string. rewrite Hne.
  rewrite opt_sign_app by (assumption || now apply digits_first).
  assert (Hrest : no_digit_first (fr ++ ex)).
  { destruct Hfr as [->|(f & _ & ->)].
    - destruct Hex as [->|(mark & sg' & e & Hm & Hs & He & ->)].
      + intros c. discriminate.
      + exact (proj1 (Hexp mark sg' e Hm Hs He)).
    - intros c [= <-]. reflexivity. }
  rewrite (digits1_app _ _ Hi Hrest).
  assert (Htail : no_digit_first ex /\
                  match ex with
                  | EmptyString => true
                  | String c r =>
                      if Ascii.eqb c "e" || Ascii.eqb c "E" then
                        match digits1 (opt_sign r) with
                        | Some EmptyString => true
                        | _ => false
                        end
                      else false
                  end = true /\ first_char ex <> Some "."%char).
  { destruct Hex as [->|(mark & sg' & e & Hm & Hs & He & ->)].
    - repeat split; try discriminate.
    - exact (Hexp mark sg' e Hm Hs He). }
  destruct Htail as (Hnd & Hacc & Hdot).
  destruct Hfr as [->|(f & Hf & ->)].
  - change (EmptyString ++ ex) with ex. destruct ex as [|c r]; [reflexivity|].
    destruct (Ascii.eqb_spec c ".") as [->|]; [now destruct Hdot|].
    exact Hacc.
  - change (("." ++ f) ++ ex) with (String "." (f ++ ex)). cbv beta iota.
    rewrite Ascii.eqb_refl, (digits1_app _ _ Hf Hnd).
    destruct ex as [|c r]; [reflexivity | exact Hacc].
Qed.

Lemma accepted_numeric_text (s : string) : is_numeric_string s = true -> numeric_text s.
Proof.
  unfold is_numeric_string. destruct (String.eqb s EmptyString); [discriminate|].
  destruct (opt_sign_inv s) as (sg & Hsg & Hs).
  destruct (digits1 (opt_sign s)) as [after_int|] eqn:Hint; [|discriminate].
  apply digits1_inv in Hint. destruct Hint as (i & Hi & Hs' & _).
  assert (Hexpo : forall ex,
             match ex with
             | EmptyString => true
             | String c r =>
                 if Ascii.eqb c "e" || Ascii.eqb c "E" then
                   match digits1 (opt_sign r) with
                   | Some EmptyString => true
                   | _ => false
                   end
                 else false
             end = true ->
             ex = EmptyString \/
             exists mark sg' e, (mark = "e" \/ mark = "E") /\ sign sg' /\ digits e /\
                                ex = mark ++ sg' ++ e).
  { intros [|c r]; [now left|]. intros H. right.
    assert (Hm : String c EmptyString = "e" \/ String c EmptyString = "E").
    { destruct (Ascii.eqb_spec c "e") as [->|]; [now left|].
      destruct (Ascii.eqb_spec c "E") as [->|]; [now right | discriminate]. }
    assert (Hc : Ascii.eqb c "e" || Ascii.eqb c "E" = true).
    { destruct Hm as [[= ->]|[= ->]]; reflexivity. }
    rewrite Hc in H.
    destruct (opt_sign_inv r) as (sg' & Hsg' & Hr).
    destruct (digits1 (opt_sign r)) as [[|]|] eqn:Hd; try discriminate.
    apply digits1_inv in Hd. destruct Hd as (e & He & Hr' & _).
    exists (String c EmptyString), sg', e.
    split; [assumption|]. split; [assumption|]. split; [assumption|].
    rewrite Hr', append_nil_r in Hr. simpl. now rewrite <- Hr. }
  intros H.
  assert (Hcase : (exists f ex, digits f /\ after_int = "." ++ f ++ ex /\
                                (ex = EmptyString \/
                                 exists mark sg' e, (mark = "e" \/ mark = "E") /\ sign sg' /\
                                                    digits e /\ ex = mark ++ sg' ++ e))
                  \/ (after_int = EmptyString \/
                      exists mark sg' e, (mark = "e" \/ mark = "E") /\ sign sg' /\
                                         digits e /\ after_int = mark ++ sg' ++ e)).
  { destruct after_int as [|c r]; [right; now left|].
    destruct (Ascii.eqb_spec c ".") as [->|Hc].
    - left. destruct (digits1 r) as [ex|] eqn:Hf; [|discriminate].
      apply digits1_inv in Hf. destruct Hf as (f & Hf & -> & _).
      exists f, ex. split; [assumption|]. split; [reflexivity|]. now apply Hexpo.
    - right. now apply Hexpo. }
  destruct Hcase as [(f & ex & Hf & -> & Hex) | Hex].
  - exists sg, i, ("." ++ f), ex. split.
    + rewrite Hs' in Hs. exact Hs.
    + split; [assumption|]. split; [assumption|]. split; [|assumption].
      right. now exists f.
  - exists sg, i, EmptyString, after_int. split.
    + rewrite Hs' in Hs. exact Hs.
    + split; [assumption|]. split; [assumption|]. split; [now left | assumption].
Qed.

End Numeric.

(** X6: [is_numeric_string] accepts exactly the texts of its regular
    expression: an optional sign, one or more digits, an optional fraction
    and an optional exponent; the empty text is refused. *)
Theorem is_numeric_string_iff (s : string) :
  (is_numeric_string s = true <-> numeric_text s) /\
  is_numeric_string EmptyString = false.
Proof.
  split; [|reflexivity].
  split; [apply accepted_numeric_text | apply numeric_text_accepted].
Qed.

(** ** The text of an integer *)

Lemma uint_digits (d : Decimal.uint) :
  all_chars is_digit (NilEmpty.string_of_uint d) = true.
Proof. induction d; simpl; auto. Qed.

Lemma nilzero_uint_digits (d : Decimal.uint) : digits (NilZero.string_of_uint d).
Proof.
  split.
  - destruct d; discriminate.
  - destruct d; try reflexivity; apply (uint_digits (_ d)).
Qed.

Lemma str_of_int_parts (z : Z) :
  exists sg d, Py.str_of_int z = sg ++ d /\ sign sg /\ digits d /\
               ((0 <= z)%Z -> sg = EmptyString).
Proof.
  unfold Py.str_of_int. destruct z as [|p|p]; simpl.
  - exists EmptyString, "0". repeat split; try discriminate. now left.
  - exists EmptyString, (NilZero.string_of_uint (Pos.to_uint p)).
    split; [reflexivity|]. split; [now left|]. split; [apply nilzero_uint_digits | auto].
  - exists "-", (NilZero.string_of_uint (Pos.to_uint p)).
    split; [reflexivity|]. split; [right; now right|].
    split; [apply nilzero_uint_digits | lia].
Qed.

Lemma str_of_nat_digits (n : nat) : all_chars is_digit (Py.str_of_nat n) = true.
Proof.
  unfold Py.str_of_nat.
  destruct (str_of_int_parts (Z.of_nat n)) as (sg & d & -> & _ & [_ Hd] & Hsg).
  rewrite Hsg by lia. exact Hd.
Qed.

(** X7: the text of every integer is a numeric string, and so is the text
    of an integer followed by a fraction (a dot and digits), by an exponent
    (e or E, an optional sign, digits) or by both; the texts [ON] and [OFF]
    of the booleans are not. *)
Theorem int_text_is_numeric (z : Z) :
  is_numeric_string (Py.str_of_int z) = true /\
  (forall f, digits f -> is_numeric_string (Py.str_of_int z ++ "." ++ f) = true) /\
  (forall mark sg e,
      mark = "e" \/ mark = "E" -> sign sg -> digits e ->
      is_numeric_string (Py.str_of_int z ++ mark ++ sg ++ e) = true) /\
  (forall f mark sg e,
      digits f -> mark = "e" \/ mark = "E" -> sign sg -> digits e ->
      is_numeric_string (Py.str_of_int z ++ "." ++ f ++ mark ++ sg ++ e) = true) /\
  is_numeric_string (stringify_primitive (VBool true)) = false /\
  is_numeric_string (stringify_primitive (VBool false)) = false.
Proof.
  destruct (str_of_int_parts z) as (sg0 & d & -> & Hsg & Hd & _).
  split; [|split; [|split; [|split; [|split]]]]; try reflexivity.
  - apply numeric_text_accepted. exists sg0, d, EmptyString, EmptyString.
    rewrite !append_nil_r. repeat split; try assumption; try (apply Hd); now left.
  - intros f Hf. apply numeric_text_accepted. exists sg0, d, ("." ++ f), EmptyString.
    rewrite append_nil_r, append_assoc.
    split; [reflexivity|]. split; [assumption|]. split; [assumption|].
    split; [right; now exists f | now left].
  - intros mark sg e Hm Hs He. apply numeric_text_accepted.
    exists sg0, d, EmptyString, (mark ++ sg ++ e).
    rewrite append_assoc.
    split; [reflexivity|]. split; [assumption|]. split; [assumption|].
    split; [now left|]. right. now exists mark, sg, e.
  - intros f mark sg e Hf Hm Hs He. apply numeric_text_accepted.
    exists sg0, d, ("." ++ f), (mark ++ sg ++ e).
    split; [now rewrite !append_assoc|]. split; [assumption|]. split; [assumption|].
    split; [right; now exists f|]. right. now exists mark, sg, e.
Qed.

(** ** The file names of the artifacts *)

Section FileNames.

Lemma all_chars_impl (f g : ascii -> bool) (s : string) :
  (forall c, f c = true -> g c = true) -> all_chars f s = true -> all_chars g s = true.
Proof.
  intros Hfg. induction s as [|c s IH]; [reflexivity|].
  rewrite !all_chars_cons. intros H. apply andb_prop in H. destruct H as [Hc Hs].
  now rewrite (Hfg c Hc), (IH Hs).
Qed.

Lemma digit_file_char (c : ascii) : is_digit c = true -> file_char c = true.
Proof. destruct c as [[] [] [] [] [] [] [] []]; try discriminate; reflexivity. Qed.

Lemma in_class_file_char (c : ascii) : in_class c = true -> file_char c = true.
Proof. unfold file_char. now intros ->. Qed.

Lemma file_char_no_slash (s : string) :
  all_chars file_char s = true -> Py.contains "/" s = false.
Proof.
  induction s as [|c s IH]; [reflexivity|].
  rewrite all_chars_cons. intros H. apply andb_prop in H. destruct H as [Hc Hs].
  simpl. rewrite (IH Hs), orb_false_r.
  destruct (Ascii.eqb_spec c "/") as [->|]; [discriminate | reflexivity].
Qed.

Lemma token_file_chars (v : pyval) :
  all_chars file_char (sanitize_value_for_filename v) = true.
Proof.
  apply (all_chars_impl in_class); [exact in_class_file_char|].
  apply sanitize_value_for_filename_has_shape.
Qed.

Lemma hw_base_file_chars (hw_flags : odict) (hw_index : nat) :
  all_chars file_char (hw_filename_base_from_hw_flags hw_flags hw_index) = true.
Proof.
  unfold hw_filename_base_from_hw_flags.
  set (vals := map _ _).
  assert (Hvals : Forall (fun x => all_chars file_char x = true) vals).
  { subst vals. apply Forall_forall. intros x Hx. apply in_map_iff in Hx.
    destruct Hx as (v & <- & _). apply token_file_chars. }
  destruct vals as [|t ts] eqn:E.
  - rewrite all_chars_app. simpl.
    apply (all_chars_impl is_digit); [exact digit_file_char | apply str_of_nat_digits].
  - rewrite <- E in *. now apply all_chars_join.
Qed.

Lemma sw_filename_file_chars (hw_base : string) (sw_index : nat) (sw : list (string * pyval)) :
  all_chars file_char hw_base = true ->
  all_chars file_char (sw_filename hw_base sw_index sw) = true /\
  exists stem, sw_filename hw_base sw_index sw = stem ++ ".txt".
Proof.
  intros Hbase. rewrite sw_filename_cases.
  destruct (named sw); [|destruct sw_index].
  - split; [|eexists; now rewrite <- !append_assoc].
    rewrite !all_chars_app, Hbase, token_file_chars. reflexivity.
  - split; [|now exists hw_base]. rewrite all_chars_app, Hbase. reflexivity.
  - split; [|eexists; now rewrite <- !append_assoc].
    rewrite !all_chars_app, Hbase.
    rewrite (all_chars_impl is_digit file_char _ digit_file_char (str_of_nat_digits _)).
    reflexivity.
Qed.

Lemma artifact_file_name (hw_list : list pyval) (fl : string * list string) :
  In fl (artifacts hw_list) ->
  all_chars file_char (fst fl) = true /\ exists stem, fst fl = stem ++ ".txt".
Proof.
  rewrite artifacts_flat_map, in_flat_map.
  intros ([i hw] & _ & Hin). simpl in Hin.
  destruct hw as [| | | | | |items]; try contradiction.
  rewrite hw_artifacts_dict in Hin.
  set (hw_flags := collect_dict_flags (flags_raw items "hw_flags")) in *.
  pose proof (hw_base_file_chars hw_flags i) as Hbase.
  assert (Hbare : In fl [(hw_filename_base_from_hw_flags hw_flags i ++ fixed_ext,
                          flags_to_lines hw_flags)] ->
                  all_chars file_char (fst fl) = true /\
                  exists stem, fst fl = stem ++ ".txt").
  { intros [<-|[]]. simpl. split; [|eexists; reflexivity].
    rewrite all_chars_app, Hbase. reflexivity. }
  destruct (get items "sw_configuration_list") as [| | | | |[|sw0 sws]|]; auto.
  apply in_flat_map in Hin. destruct Hin as ([M sw] & _ & Hin).
  destruct sw as [| | | | | |sw]; try contradiction.
  destruct Hin as [<-|[]]. simpl. now apply sw_filename_file_chars.
Qed.

Lemma path_join_relative (a b : string) :
  b <> EmptyString -> Py.contains "/" b = false ->
  Py.path_join a b = a ++ b \/ Py.path_join a b = a ++ "/" ++ b.
Proof.
  intros Hne Hb. unfold Py.path_join.
  assert (E : Py.startswith b "/" = false).
  { destruct b as [|c b]; [contradiction|]. simpl in Hb.
    apply orb_false_iff in Hb. destruct Hb as [Hc _].
    unfold Py.startswith.
    change (String.prefix "/" (String c b))
      with (match ascii_dec "/" c with
            | left _ => String.prefix EmptyString b
            | right _ => false
            end).
    destruct (ascii_dec "/" c) as [<-|]; [discriminate | reflexivity]. }
  rewrite E. destruct (_ || _); auto.
Qed.

End FileNames.

(** X8: the name of every file the generator plans is made of the characters
    a to z, 0 to 9, hyphen, underscore and dot, and ends in [.txt]: no value
    of the input can put a path separator in it, so that the path written is
    the output directory followed by the name. *)
Theorem artifact_file_names_safe (hw_list : list pyval) (filename : string)
    (lines : list string) (outdir : string) :
  In (filename, lines) (artifacts hw_list) ->
  all_chars file_char filename = true /\
  Py.contains "/" filename = false /\
  (exists stem, filename = stem ++ ".txt") /\
  (Py.path_join outdir filename = outdir ++ filename \/
   Py.path_join outdir filename = outdir ++ "/" ++ filename).
Proof.
  intros Hin. apply artifact_file_name in Hin. simpl in Hin.
  destruct Hin as [Hchars [stem Hstem]].
  pose proof (file_char_no_slash _ Hchars) as Hslash.
  repeat split; try assumption.
  - now exists stem.
  - apply path_join_relative; [|assumption].
    rewrite Hstem. destruct stem; discriminate.
Qed.

Lemma artifact_file_names_safe_witness :
  let hw := VDict [("hw_flags", VDict [("BOARD", VStr "../../etc/Passwd")]);
                   ("sw_configuration_list", VList [VDict [("name", VStr "a/b")]])] in
  all_chars file_char "etc-passwd_a-b.txt" = true /\
  Py.contains "/" "etc-passwd_a-b.txt" = false /\
  (exists stem, "etc-passwd_a-b.txt" = stem ++ ".txt") /\
  (Py.path_join "out" "etc-passwd_a-b.txt" = "out" ++ "etc-passwd_a-b.txt" \/
   Py.path_join "out" "etc-passwd_a-b.txt" = "out" ++ "/" ++ "etc-passwd_a-b.txt").
Proof.
  intros hw.
  apply (artifact_file_names_safe [hw] "etc-passwd_a-b.txt" ["-DBOARD=../../etc/Passwd"] "out").
  left. reflexivity.
Defined.

(** ** Whole runs of [main] *)

Lemma written_paths_app (l1 l2 : list event) :
  written_paths (l1 ++ l2) = (written_paths l1 ++ written_paths l2)%list.
Proof. apply flat_map_app. Qed.

Lemma replay_emit_io_attempts (a : args) (E : env) (arts : list (string * list string))
    (st : state) :
  dry_run a = false ->
  exists new,
    replay (emit_io a E) arts st
    = {| log := log st ++ new; created_files := created_files st ++ written_paths new |} /\
    Forall2 (attempt a) arts new.
Proof.
  intros Hdry. revert st. induction arts as [|[f l] arts IH]; intros st.
  - exists []. simpl. rewrite !app_nil_r. split; [now destruct st | constructor].
  - rewrite replay_cons. simpl fst. simpl snd.
    destruct (IH (emit_io a E f l st)) as (new & Hrun & Hall). rewrite Hrun.
    unfold emit_io. rewrite Hdry.
    destruct (write_error E (log st) (Py.path_join (outdir a) f)) as [msg|]; simpl.
    + exists (Stderr ("Error: failed to write file '" ++ Py.path_join (outdir a) f
                      ++ "': " ++ msg) :: new).
      split.
      * f_equal. now rewrite <- app_assoc.
      * constructor; [|exact Hall]. right. now exists msg.
    + exists (written a (f, l) :: new). split.
      * f_equal; now rewrite <- app_assoc.
      * constructor; [|exact Hall]. now left.
Qed.

(** X9: an [OSError] raised by a write does not stop the run.  With a list
    to read and a directory to write to, a run that is no dry run, in which a
    write either succeeds or raises [OSError] and no [print] raises (the runs
    of this model), returns: after creating the directory it leaves, for each
    artifact in order, its file or the report of the refused write, and its
    closing report counts and lists exactly the files written. *)
Theorem main_attempts_every_artifact (a : args) (E : env)
    (data : list (string * pyval)) (hw_list : list pyval) :
  load E = Loaded (VDict data) ->
  get data "hw_configuration_list" = VList hw_list ->
  makedirs_error E = None ->
  dry_run a = false ->
  exists new,
    main a E = (Returned, Makedirs (outdir a) :: new ++ report (written_paths new)) /\
    Forall2 (attempt a) (artifacts hw_list) new.
Proof.
  intros Hload Hlist Hdir Hdry. unfold main. rewrite Hload, Hlist, Hdir.
  rewrite hw_loop_replay.
  destruct (replay_emit_io_attempts a E (artifacts hw_list)
              {| log := [Makedirs (outdir a)]; created_files := [] |} Hdry)
    as (new & -> & Hall).
  exists new. split; [|exact Hall].
  unfold summary. rewrite Hdry. simpl.
  destruct (written_paths new); reflexivity.
Qed.

Lemma main_attempts_every_artifact_witness :
  let a := {| input := "conf.json"; outdir := "out"; dry_run := false |} in
  let hw_list := [VDict [("hw_flags", VDict [("BOARD", VStr "a")])];
                  VDict [("hw_flags", VDict [("BOARD", VStr "b")])]] in
  let E := {| load := Loaded (VDict [("hw_configuration_list", VList hw_list)]);
              makedirs_error := None;
              write_error := fun _ p => if String.eqb p "out/a.txt"
                                        then Some "disk full" else None |} in
  exists new,
    main a E = (Returned, Makedirs (outdir a) :: new ++ report (written_paths new)) /\
    Forall2 (attempt a) (artifacts hw_list) new.
Proof.
  intros a hw_list E.
  exact (main_attempts_every_artifact a E _ hw_list eq_refl eq_refl eq_refl eq_refl).
Defined.

(** X10: a dry run with a list to read still creates the output directory,
    then prints one line per artifact and the closing line; it writes no
    file, and the file system is not asked. *)
Theorem dry_run_log (a : args) (E : env)
    (data : list (string * pyval)) (hw_list : list pyval) :
  load E = Loaded (VDict data) ->
  get data "hw_configuration_list" = VList hw_list ->
  makedirs_error E = None ->
  dry_run a = true ->
  main a E
  = (Returned,
     Makedirs (outdir a)
     :: map (dry_line a) (artifacts hw_list) ++ [Stdout "Dry run completed."]) /\
  written_paths (snd (main a E)) = [].
Proof.
  intros Hload Hlist Hdir Hdry.
  assert (Hmain : main a E
                  = (Returned,
                     Makedirs (outdir a)
                     :: map (dry_line a) (artifacts hw_list) ++ [Stdout "Dry run completed."])).
  { unfold main. rewrite Hload, Hlist, Hdir, hw_loop_replay.
    rewrite (replay_emit_io_dry a E _ _ Hdry). unfold summary. rewrite Hdry. reflexivity. }
  split; [exact Hmain|]. rewrite Hmain. simpl.
  rewrite written_paths_app. simpl. rewrite app_nil_r. clear Hmain.
  induction (artifacts hw_list) as [|fl arts IH]; [reflexivity | exact IH].
Qed.

Lemma dry_run_log_witness :
  let a := {| input := "conf.json"; outdir := "out"; dry_run := true |} in
  let hw_list := [VDict [("hw_flags", VDict [("BOARD", VStr "a")])]; VDict []] in
  let E := {| load := Loaded (VDict [("hw_configuration_list", VList hw_list)]);
              makedirs_error := None;
              write_error := fun _ _ => Some "never asked" |} in
  main a E
  = (Returned,
     [Makedirs "out";
      Stdout "[DRY RUN] out/a.txt -> -DBOARD=a";
      Stdout "[DRY RUN] out/hw1.txt -> (no flags)";
      Stdout "Dry run completed."]) /\
  written_paths (snd (main a E)) = [].
Proof.
  intros a hw_list E.
  exact (dry_run_log a E _ hw_list eq_refl eq_refl eq_refl eq_refl).
Defined.

(** The four ways a run of [main] ends. *)
Lemma main_cases (a : args) (E : env) :
  (exists msg, main a E = (SysExit 2, [Stderr msg])) \/
  main a E = (Uncaught "AttributeError", []) \/
  (exists msg diagnostics,
      main a E = (SysExit 3, Makedirs (outdir a) :: Stderr msg :: map Stderr diagnostics)) \/
  (exists l, main a E = (Returned, l)).
Proof.
  unfold main.
  destruct (load E) as [|e|data]; [left; eexists; reflexivity ..|].
  destruct data as [| | | | | |data]; try (right; left; reflexivity).
  destruct (get data "hw_configuration_list") as [| | | | |hw_list|];
    try (left; eexists; reflexivity).
  destruct (makedirs_error E) as [[e diagnostics]|].
  - right. right. left. eexists. eexists. reflexivity.
  - right. right. right. eexists. reflexivity.
Qed.

(** X11: when [main] ends through one of its own [sys.exit] calls, or through
    the [AttributeError] that [data.get] raises on a document that is no
    object, it has written no file and printed nothing on standard output;
    its exit code is then 2 or 3 (1 for the [AttributeError]), and unless it
    is 3 the output directory was not created. *)
Theorem failed_run_leaves_nothing (a : args) (E : env) :
  (exists code, fst (main a E) = SysExit code)
  \/ fst (main a E) = Uncaught "AttributeError" ->
  written_paths (snd (main a E)) = [] /\
  (forall text, ~ In (Stdout text) (snd (main a E))) /\
  (fst (main a E) = Uncaught "AttributeError" \/ fst (main a E) = SysExit 2
   \/ fst (main a E) = SysExit 3) /\
  (exit_code (fst (main a E)) <> 3 -> forall p, ~ In (Makedirs p) (snd (main a E))).
Proof.
  destruct (main_cases a E) as [[msg ->] | [-> | [(msg & diagnostics & ->) | [l ->]]]];
    simpl; intros Hfail.
  - split; [reflexivity|]. split; [intros t [H|[]]; discriminate|].
    split; [auto|]. intros _ p [H|[]]. discriminate.
  - split; [reflexivity|]. split; [intros t []|]. split; [auto|]. intros _ p [].
  - assert (Hdiag : written_paths (map Stderr diagnostics) = []).
    { induction diagnostics as [|d ds IH]; [reflexivity | exact IH]. }
    split; [exact Hdiag|]. split; [|split; [auto | congruence]].
    intros text [H|[H|H]]; try discriminate.
    apply in_map_iff in H. destruct H as (x & H & _). discriminate.
  - destruct Hfail as [[code H]|H]; discriminate.
Qed.

Lemma failed_run_leaves_nothing_witness :
  let a := {| input := "missing.json"; outdir := "out"; dry_run := false |} in
  let E := {| load := FileNotFoundError;
              makedirs_error := None;
              write_error := fun _ _ => None |} in
  written_paths (snd (main a E)) = [] /\
  (forall text, ~ In (Stdout text) (snd (main a E))) /\
  (fst (main a E) = Uncaught "AttributeError" \/ fst (main a E) = SysExit 2
   \/ fst (main a E) = SysExit 3) /\
  (exit_code (fst (main a E)) <> 3 -> forall p, ~ In (Makedirs p) (snd (main a E))).
Proof.
  intros a E. apply (failed_run_leaves_nothing a E). left. now exists 2.
Defined.

(** ** Flag maps are determined by their lookups *)

Section FlagMapExt.

Lemma str_lt_total (a b : string) : a <> b -> str_lt a b \/ str_lt b a.
Proof.
  intros Hne. unfold str_lt, String.ltb.
  rewrite (String.compare_antisym b a).
  destruct (String.compare a b) eqn:E; simpl; auto.
  apply String.compare_eq_iff in E. contradiction.
Qed.

Lemma sorted_head_not_in (k : string) (l : list string) :
  StronglySorted str_lt (k :: l) -> ~ In k l.
Proof.
  intros H. apply strictly_sorted_NoDup in H. now inversion H.
Qed.

Lemma sorted_below_not_in (a k : string) (l : list string) :
  StronglySorted str_lt (k :: l) -> str_lt a k -> ~ In a (k :: l).
Proof.
  intros H Hak Hin. inversion H as [|? ? _ Hall]; subst.
  destruct Hin as [->|Hin]; [exact (str_lt_irrefl _ Hak)|].
  rewrite Forall_forall in Hall. specialize (Hall a Hin).
  exact (str_lt_irrefl _ (str_lt_trans _ _ _ Hak Hall)).
Qed.

Lemma flag_map_ext (m1 m2 : odict) :
  is_flag_map m1 -> is_flag_map m2 ->
  (forall k, lookup k m1 = lookup k m2) -> m1 = m2.
Proof.
  unfold is_flag_map. revert m2.
  induction m1 as [|[k1 v1] m1 IH]; intros [|[k2 v2] m2] H1 H2 Hl.
  - reflexivity.
  - specialize (Hl k2). simpl in Hl. rewrite String.eqb_refl in Hl. discriminate.
  - specialize (Hl k1). simpl in Hl. rewrite String.eqb_refl in Hl. discriminate.
  - simpl in H1, H2.
    assert (Hk : k1 = k2).
    { destruct (String.eqb_spec k1 k2) as [|Hne]; [assumption|]. exfalso.
      destruct (str_lt_total _ _ Hne) as [Hlt|Hlt].
      - pose proof (sorted_below_not_in _ _ _ H2 Hlt) as Hnot.
        apply (lookup_None _ k1 ((k2, v2) :: m2)) in Hnot.
        specialize (Hl k1). rewrite Hnot in Hl. simpl in Hl.
        rewrite String.eqb_refl in Hl. discriminate.
      - pose proof (sorted_below_not_in _ _ _ H1 Hlt) as Hnot.
        apply (lookup_None _ k2 ((k1, v1) :: m1)) in Hnot.
        specialize (Hl k2). rewrite Hnot in Hl. simpl in Hl.
        rewrite String.eqb_refl in Hl. discriminate. }
    subst k2.
    assert (Hv : v1 = v2).
    { specialize (Hl k1). simpl in Hl. rewrite String.eqb_refl in Hl. congruence. }
    subst v2. f_equal.
    apply IH.
    + now inversion H1.
    + now inversion H2.
    + intros k. specialize (Hl k). simpl in Hl.
      destruct (String.eqb_spec k1 k) as [Hk|]; [subst k | exact Hl].
      pose proof (sorted_head_not_in _ _ H1) as N1.
      pose proof (sorted_head_not_in _ _ H2) as N2.
      apply (lookup_None _ k1 m1) in N1. apply (lookup_None _ k1 m2) in N2.
      now rewrite N1, N2.
Qed.

Lemma lookup_In_iff (V : Type) (k : string) (v : V) (items : list (string * V)) :
  NoDup (keys items) -> (lookup k items = Some v <-> In (k, v) items).
Proof.
  induction items as [|[a va] items IH]; simpl; intros Hnd.
  - split; [discriminate | tauto].
  - inversion Hnd as [|? ? Ha Hitems]; subst.
    destruct (String.eqb_spec a k) as [->|Hak].
    + split.
      * intros [= ->]. now left.
      * intros [[= ->]|Hin]; [reflexivity|].
        exfalso. apply Ha. unfold keys. apply in_map_iff. now exists (k, v).
    + rewrite (IH Hitems). split; [auto|].
      intros [[= -> _]|Hin]; [contradiction | assumption].
Qed.

Lemma lookup_permutation (V : Type) (k : string) (l1 l2 : list (string * V)) :
  NoDup (keys l1) -> Permutation l1 l2 -> lookup k l1 = lookup k l2.
Proof.
  intros Hnd Hperm.
  assert (Hnd2 : NoDup (keys l2)).
  { eapply Permutation_NoDup; [|exact Hnd]. unfold keys. now apply Permutation_map. }
  destruct (lookup k l1) as [v|] eqn:E1.
  - apply (lookup_In_iff _ _ _ _ Hnd) in E1. symmetry.
    apply (lookup_In_iff _ _ _ _ Hnd2). eapply Permutation_in; eassumption.
  - destruct (lookup k l2) as [v|] eqn:E2; [|reflexivity].
    apply (lookup_In_iff _ _ _ _ Hnd2) in E2.
    apply Permutation_sym in Hperm.
    apply (Permutation_in _ Hperm) in E2.
    apply (lookup_In_iff _ _ _ _ Hnd) in E2. congruence.
Qed.

End FlagMapExt.

(** X12: the flag map of a JSON object does not depend on the order in which
    the object lists its members (its keys being distinct, as those of a
    Python dict are). *)
Theorem collect_dict_flags_order (items items' : list (string * pyval)) :
  NoDup (keys items) ->
  Permutation items items' ->
  collect_dict_flags (VDict items) = collect_dict_flags (VDict items').
Proof.
  intros Hnd Hperm.
  destruct (collect_dict_flags_items items) as [H1 L1].
  destruct (collect_dict_flags_items items') as [H2 L2].
  apply flag_map_ext; try assumption.
  intros k. rewrite L1, L2. unfold flag_of.
  now rewrite (lookup_permutation _ k _ _ Hnd Hperm).
Qed.

Lemma collect_dict_flags_order_witness :
  collect_dict_flags (VDict [("OPT", VBool true); ("BOARD", VStr "nucleo"); ("N", VInt 3)])
  = collect_dict_flags (VDict [("N", VInt 3); ("OPT", VBool true); ("BOARD", VStr "nucleo")]).
Proof.
  apply collect_dict_flags_order.
  - repeat constructor; simpl; intuition discriminate.
  - apply Permutation_sym. apply (Permutation_cons_app [_; _] []). reflexivity.
Defined.

(** ** Merging with an empty flag map *)

Lemma od_set_fresh (k v : string) (m : odict) :
  ~ In k (keys m) -> od_set k v m = (m ++ [(k, v)])%list.
Proof.
  induction m as [|[a va] m IH]; simpl; [reflexivity|].
  intros H. destruct (String.eqb_spec a k) as [->|]; [tauto|].
  rewrite IH by tauto. reflexivity.
Qed.

Lemma assign_all_fresh (l m : odict) :
  NoDup (keys l) ->
  (forall k, In k (keys l) -> ~ In k (keys m)) ->
  assign_all l m = (m ++ l)%list.
Proof.
  revert m. induction l as [|[a va] l IH]; intros m Hnd Hfresh.
  - simpl. now rewrite app_nil_r.
  - inversion Hnd as [|? ? Ha Hl]; subst.
    unfold assign_all in *. simpl fold_left.
    rewrite od_set_fresh by (apply Hfresh; now left).
    rewrite IH; [now rewrite <- app_assoc | assumption |].
    intros k Hk Hin. unfold keys in Hin. rewrite map_app in Hin.
    apply in_app_or in Hin. destruct Hin as [Hin|[<-|[]]].
    + apply (Hfresh k); [now right | exact Hin].
    + contradiction.
Qed.

(** X13: merging a flag map with the empty map, on either side, gives the
    flag map back: hardware flags pass unchanged to a software entry without
    flags, and software flags alone are kept as they are. *)
Theorem merge_flags_empty (flags : odict) :
  is_flag_map flags ->
  merge_flags flags [] = flags /\ merge_flags [] flags = flags.
Proof.
  intros H. apply strictly_sorted_NoDup in H. unfold merge_flags.
  split.
  - simpl. apply (assign_all_fresh flags [] H). intros k _ [].
  - simpl. apply (assign_all_fresh flags [] H). intros k _ [].
Qed.

Lemma merge_flags_empty_witness :
  let flags := collect_dict_flags (VDict [("OPT", VBool true); ("BOARD", VStr "nucleo")]) in
  merge_flags flags [] = flags /\ merge_flags [] flags = flags.
Proof.
  intros flags. apply (merge_flags_empty flags). apply collect_dict_flags_is_flag_map.
Defined.




Lemma hw_base_position (hw_flags : odict) (N N' : nat) :
  (exists v, In v (values hw_flags) /\ blank v = false) ->
  hw_filename_base_from_hw_flags hw_flags N = hw_filename_base_from_hw_flags hw_flags N'.
Proof.
  intros (v & Hin & Hv). unfold hw_filename_base_from_hw_flags.
  assert (Hf : In v (filter (fun v => negb (String.eqb (Py.strip (py_str (VStr v))) EmptyString))
                        (values hw_flags))).
  { apply filter_In. split; [exact Hin|]. simpl py_str. now rewrite strip_blank, Hv. }
  destruct (filter _ (values hw_flags)); [destruct Hf | reflexivity].
Qed.

(** X15: the position of a hardware entry in the list matters only for the
    [hw{N}] fallback: an entry whose flag map has a value that is not blank
    plans the same files, names and contents, at any position, so that two
    such entries with equal content are written to the same paths. *)
Theorem hw_entry_position_independent (N N' : nat) (items : list (string * pyval)) :
  (exists v, In v (values (collect_dict_flags (flags_raw items "hw_flags")))
             /\ blank v = false) ->
  hw_artifacts N (VDict items) = hw_artifacts N' (VDict items).
Proof.
  intros H. rewrite !hw_artifacts_dict.
  now rewrite (hw_base_position _ N N' H).
Qed.

Lemma hw_entry_position_independent_witness :
  let items := [("hw_flags", VDict [("BOARD", VStr "nucleo")]);
                ("sw_configuration_list", VList [VDict []; VDict []])] in
  hw_artifacts 0 (VDict items) = hw_artifacts 5 (VDict items).
Proof.
  intros items. apply (hw_entry_position_independent 0 5 items).
  exists "nucleo". split; [now left | reflexivity].
Defined.

(** X16: a hardware entry with no usable [hw_flags] (absent, or no object)
    and no software list (absent, no list, or empty) plans the one file
    [hw{N}.txt] with no line, whose written content is a single newline. *)
Theorem hw_entry_without_flags (N : nat) (items : list (string * pyval)) :
  is_dict (get_default items "hw_flags" (VDict [])) = false
  \/ lookup "hw_flags" items = None ->
  (forall sw0 sws, get items "sw_configuration_list" <> VList (sw0 :: sws)) ->
  hw_artifacts N (VDict items) = [("hw" ++ Py.str_of_nat N ++ ".txt", [])] /\
  forall a, written a ("hw" ++ Py.str_of_nat N ++ ".txt", [])
            = WriteFile (Py.path_join (outdir a) ("hw" ++ Py.str_of_nat N ++ ".txt")) Py.nl.
Proof.
  intros Hflags Hsw.
  assert (Hraw : flags_raw items "hw_flags" = VDict []).
  { unfold flags_raw. destruct Hflags as [-> | H]; [reflexivity|].
    unfold get_default. now rewrite H. }
  split; [|reflexivity].
  rewrite hw_artifacts_dict, Hraw.
  destruct (get items "sw_configuration_list") as [| | | | |l|] eqn:E;
    try reflexivity.
  destruct l as [|sw0 sws]; [reflexivity|].
  now destruct (Hsw sw0 sws).
Qed.

Lemma hw_entry_without_flags_witness :
  hw_artifacts 2 (VDict [("hw_flags", VStr "none"); ("sw_configuration_list", VList [])])
  = [("hw2.txt", [])] /\
  forall a, written a ("hw2.txt", []) = WriteFile (Py.path_join (outdir a) "hw2.txt") Py.nl.
Proof.
  apply (hw_entry_without_flags 2
           [("hw_flags", VStr "none"); ("sw_configuration_list", VList [])]).
  - left. reflexivity.
  - intros sw0 sws. discriminate.
Defined.
